(** * The hotline webhook relay ([webservice/__main__.py]) in Rocq

    A shallow embedding of the four aiohttp handlers of the enhanced
    Code-of-Conduct hotline, followed by the properties its specification
    states about them.

    Conventions of the embedding:
    - a Python [str] is a [string], one [ascii] per code point, so the
      model covers the code points 0..255;
    - [os.environ] is a finite map from names to values;
    - a handler runs in a small monad that reads the process
      configuration, asks the telephony provider (whose answer, a value or
      an exception, is decided by the environment), and records every
      provider request and every printed line in order. *)

From Stdlib Require Import Ascii String.
From stdpp Require Import gmap strings list.

Open Scope string_scope.
Set Warnings "-register-all".

(** ** Python strings *)

Module PyStr.

(** [str.isspace] on one code point below 256. *)
Definition isspace (c : ascii) : bool :=
  let n := nat_of_ascii c in
  (Nat.leb 9 n && Nat.leb n 13) || (Nat.leb 28 n && Nat.leb n 32)
  || Nat.eqb n 133 || Nat.eqb n 160.

(** [str.lstrip()] *)
Fixpoint lstrip (s : string) : string :=
  match s with
  | EmptyString => EmptyString
  | String c s' => if isspace c then lstrip s' else s
  end.

(** [str.rstrip()] *)
Fixpoint rstrip (s : string) : string :=
  match s with
  | EmptyString => EmptyString
  | String c s' =>
      match rstrip s' with
      | EmptyString => if isspace c then EmptyString else String c EmptyString
      | r => String c r
      end
  end.

(** [str.strip()] *)
Definition strip (s : string) : string := rstrip (lstrip s).

(** [str.lower()] on one code point below 256: the letters A..Z and the
    Latin-1 capitals 0xC0..0xDE (the multiplication sign 0xD7 apart). *)
Definition lower_char (c : ascii) : ascii :=
  let n := nat_of_ascii c in
  if (Nat.leb 65 n && Nat.leb n 90)
     || (Nat.leb 192 n && Nat.leb n 222 && negb (Nat.eqb n 215))
  then ascii_of_nat (n + 32) else c.

(** [str.lower()] *)
Fixpoint lower (s : string) : string :=
  match s with
  | EmptyString => EmptyString
  | String c s' => String (lower_char c) (lower s')
  end.

(** What an f-string writes for a value that is a [str] or [None]. *)
Definition fmt (o : option string) : string :=
  match o with
  | Some s => s
  | None => "None"
  end.

End PyStr.

(** ** JSON values and Python dicts *)

(** The values the handlers build: a dict keeps its insertion order, which
    is the order [json.dumps] writes. *)
Inductive json : Type :=
| JNull
| JBool (b : bool)
| JStr (s : string)
| JList (l : list json)
| JDict (d : list (string * json)).

(** [None] becomes JSON [null]. *)
Definition json_of_opt (o : option string) : json :=
  match o with
  | Some s => JStr s
  | None => JNull
  end.

Module PyDict.

(** [d[k] = v]: overwrite in place, or add at the end. *)
Fixpoint setitem (d : list (string * json)) (k : string) (v : json)
  : list (string * json) :=
  match d with
  | [] => [(k, v)]
  | (k', v') :: d' =>
      if String.eqb k' k then (k', v) :: d' else (k', v') :: setitem d' k v
  end.

(** [d.update(other)] *)
Definition update (d other : list (string * json)) : list (string * json) :=
  fold_left (fun acc kv => setitem acc kv.1 kv.2) other d.

End PyDict.

(** ** Requests, responses and the telephony provider *)

(** The part of an aiohttp request the handlers read. [query] is a
    multi-dict: indexing it gives the first value of the key. *)
Record request : Type := {
  host : string;
  query : list (string * string);
  match_info : list (string * string)
}.

Inductive body : Type :=
| NoBody
| JsonText (j : json)
| Bytes (b : string).

Record response : Type := {
  status : nat;
  content_type : option string;
  payload : body
}.

(** [web.json_response(data)] *)
Definition json_response (data : json) : response :=
  {| status := 200; content_type := Some "application/json";
     payload := JsonText data |}.

(** [nexmo.Client(key=..., secret=..., application_id=..., private_key=...)] *)
Record client : Type := {
  key : option string;
  secret : option string;
  application_id : option string;
  private_key : option string
}.

(** A request to the provider through the client library. *)
Inductive api_call : Type :=
| create_call (c : client) (params : json)
| send_speech (c : client) (uuid : string) (text : string)
| send_message (c : client) (params : json)
| get_recording (c : client) (url : string).

(** What a request to the provider does: it returns a value (kept as the
    text or bytes the handlers use of it), raises [nexmo.Error], or raises
    an exception of another class. *)
Inductive outcome : Type :=
| Returns (v : string)
| RaisesNexmoError (msg : string)
| RaisesOther (msg : string).

(** The observable effects of a handler, in order. *)
Inductive event : Type :=
| Api (a : api_call)
| Printed (line : string).

(** The exceptions that leave a handler. *)
Inductive exn : Type :=
| KeyError (k : string)
| IndexError
| NexmoError (msg : string)
| OtherException (msg : string).

Inductive result (A : Type) : Type :=
| Ok (a : A)
| Raise (e : exn).
Arguments Ok {A} a.
Arguments Raise {A} e.

(** One staff entry of the [PHONE_NUMBERS] list. *)
Record entry : Type := { name : string; phone : string }.

(** Everything outside the handler: the process environment, the decoded
    value of [PHONE_NUMBERS] (what [json.loads] returns on it), the
    provider's answer to each request given what happened before, and the
    number the random generator draws from. *)
Record world : Type := {
  environ : gmap string string;
  phone_numbers_json : list entry;
  provider : list event -> api_call -> outcome;
  entropy : nat
}.

(** ** The handler monad *)

Definition M (A : Type) : Type := world -> list event -> list event * result A.

Definition ret {A} (a : A) : M A := fun _ t => (t, Ok a).

Definition bind {A B} (m : M A) (k : A -> M B) : M B :=
  fun w t =>
    match m w t with
    | (t', Ok a) => k a w t'
    | (t', Raise e) => (t', Raise e)
    end.

Definition raise {A} (e : exn) : M A := fun _ t => (t, Raise e).

Notation "'do' x <- m ; k" := (bind m (fun x => k))
  (at level 10, x name, m at level 100, k at level 200).
Notation "'run' m ; k" := (bind m (fun _ => k))
  (at level 10, m at level 100, k at level 200).

(** [os.environ.get(k)] *)
Definition environ_get (k : string) : M (option string) :=
  fun w t => (t, Ok (environ w !! k)).

(** [print(line)] *)
Definition print (line : string) : M unit :=
  fun _ t => ((t ++ [Printed line])%list, Ok tt).

(** A method call on the client: the request is recorded, then the
    provider's answer is returned or raised. *)
Definition request_provider (a : api_call) : M string :=
  fun w t =>
    let t' := (t ++ [Api a])%list in
    match provider w t a with
    | Returns v => (t', Ok v)
    | RaisesNexmoError msg => (t', Raise (NexmoError msg))
    | RaisesOther msg => (t', Raise (OtherException msg))
    end.

(** [try: body / except nexmo.Error as er: handler / else: orelse] *)
Definition try_except_nexmo {A} (body : M A) (handler : string -> M unit)
    (orelse : A -> M unit) : M unit :=
  fun w t =>
    match body w t with
    | (t', Ok a) => orelse a w t'
    | (t', Raise (NexmoError msg)) => handler msg w t'
    | (t', Raise e) => (t', Raise e)
    end.

(** [for x in xs: f(x)] *)
Fixpoint for_each {A} (xs : list A) (f : A -> M unit) : M unit :=
  match xs with
  | [] => ret tt
  | x :: xs' => run f x; for_each xs' f
  end.

(** [mapping[k]] on a multi-dict or on [match_info] *)
Fixpoint lookup_first (k : string) (kvs : list (string * string)) : option string :=
  match kvs with
  | [] => None
  | (k', v) :: kvs' => if String.eqb k' k then Some v else lookup_first k kvs'
  end.

Definition getitem (kvs : list (string * string)) (k : string) : M string :=
  match lookup_first k kvs with
  | Some v => ret v
  | None => raise (KeyError k)
  end.

(** [random.choice(seq)]: [seq[randbelow(len(seq))]], and [IndexError] on
    an empty sequence. *)
Definition random_choice {A} (seq : list A) : M A :=
  fun w t =>
    match nth_error seq (entropy w mod length seq) with
    | Some x => (t, Ok x)
    | None => (t, Raise IndexError)
    end.

(** [os.environ.get(k, default)] *)
Definition environ_get_default (k dflt : string) : M string :=
  fun w t => (t, Ok (default dflt (environ w !! k))).

(** [a != b] where [a] comes from [os.environ.get] and [b] is a [str]:
    [None] differs from every string. *)
Definition py_ne (a : option string) (b : string) : bool :=
  match a with
  | Some s => negb (String.eqb s b)
  | None => true
  end.

(** ** The module [webservice/__main__.py] *)

Definition MUSIC_WHILE_YOU_WAIT : list string := [
  "https://assets.ctfassets.net/j7pfe8y48ry3/530pLnJVZmiUu8mkEgIMm2/dd33d28ab6af9a2d32681ae80004886e/oaklawn-dreams.mp3";
  "https://assets.ctfassets.net/j7pfe8y48ry3/2toXv1xuOsMm0Yku0YEGya/a792ce81a7866fc77f6768d416018012/broken-shovel.mp3";
  "https://assets.ctfassets.net/j7pfe8y48ry3/16VJzaewWsKWg4GsSUiwGi/9b715be5e8c850e46de98b64e6d31141/lennys-song.mp3";
  "https://assets.ctfassets.net/j7pfe8y48ry3/1qApZVYkxaiayA6aysGAOo/8983586c8ab4db8b69490718469a12f5/new-juno.mp3";
  "https://assets.ctfassets.net/j7pfe8y48ry3/6iXXKtJCp2oCMiGmsmAKqu/8163a8fe863405292ba3609193593add/davis-square-shuffle.mp3"
].

Definition get_nexmo_client : M client :=
  do api_key <- environ_get "NEXMO_API_KEY";
  do api_secret <- environ_get "NEXMO_API_SECRET";
  do app_id <- environ_get "NEXMO_APP_ID";
  do private_key <- environ_get "NEXMO_PRIVATE_KEY_VOICE_APP";
  ret {| key := api_key; secret := api_secret;
         application_id := app_id; private_key := private_key |}.

Definition get_phone_numbers : M (list entry) :=
  fun w t => (t, Ok (phone_numbers_json w)).

(** The loop of [get_phone_number_owner]: the first entry whose phone is
    the given number decides, and [None] is returned past the end. *)
Fixpoint owner_in (phone_numbers : list entry) (phone_number : string)
  : option string :=
  match phone_numbers with
  | [] => None
  | phone_number_info :: rest =>
      if String.eqb (phone phone_number_info) phone_number
      then Some (name phone_number_info)
      else owner_in rest phone_number
  end.

Definition get_phone_number_owner (phone_number : string) : M (option string) :=
  do phone_numbers <- get_phone_numbers;
  ret (owner_in phone_numbers phone_number).

Definition get_hotline_description : M (option string) :=
  environ_get "HOTLINE_DESC".

Definition is_auto_recording : M bool :=
  do autorecord_flag <- environ_get_default "AUTO_RECORD" "false";
  ret (String.eqb (PyStr.lower autorecord_flag) "true").

(** The dict passed to [client.create_call] for one staff entry. *)
Definition call_params (request : request)
    (hotline_number conversation_uuid call_uuid : string)
    (phone_number_dict : entry) : json :=
  JDict [
    ("to", JList [JDict [("type", JStr "phone");
                         ("number", JStr (phone phone_number_dict))]]);
    ("from", JDict [("type", JStr "phone"); ("number", JStr hotline_number)]);
    ("answer_url", JList [JStr (
       "http://" ++ host request ++ "/webhook/answer_conference_call/"
       ++ conversation_uuid ++ "/" ++ call_uuid ++ "/")]);
    ("machine_detection", JStr "hangup")
  ].

(** [GET /webhook/answer/] *)
Definition answer_call (request : request) : M response :=
  do hotline_number <- getitem (query request) "to";
  do conversation_uuid_arg <- getitem (query request) "conversation_uuid";
  let conversation_uuid := PyStr.strip conversation_uuid_arg in
  do call_uuid_arg <- getitem (query request) "uuid";
  let call_uuid := PyStr.strip call_uuid_arg in
  do desc <- get_hotline_description;
  let greeting := "You've reached the " ++ PyStr.fmt desc ++ "." in
  do track <- random_choice MUSIC_WHILE_YOU_WAIT;
  let conversation_ncco := [
    ("action", JStr "conversation");
    ("name", JStr conversation_uuid);
    ("musicOnHoldUrl", JList [JStr track]);
    ("endOnExit", JBool false);
    ("startOnEnter", JBool false)
  ] in
  do recording <- is_auto_recording;
  do updated <-
    (if recording : bool then
       do hook <- environ_get "ZAPIER_CATCH_HOOK_RECORDING_FINISHED_URL";
       ret (greeting ++ " This call is recorded.",
            PyDict.update conversation_ncco
              [("record", JBool true); ("eventUrl", JList [json_of_opt hook])])
     else ret (greeting, conversation_ncco));
  let ncco := JList [
    JDict [("action", JStr "talk"); ("text", JStr updated.1)];
    JDict updated.2
  ] in
  do client <- get_nexmo_client;
  do phone_numbers <- get_phone_numbers;
  run for_each phone_numbers (fun phone_number_dict =>
        run request_provider (create_call client
              (call_params request hotline_number conversation_uuid call_uuid
                 phone_number_dict));
        ret tt);
  ret (json_response ncco).

(** [GET /webhook/answer_conference_call/{origin_conversation_uuid}/{origin_call_uuid}/] *)
Definition answer_conference_call (request : request) : M response :=
  do to_phone_number <- getitem (query request) "to";
  do origin_conversation_uuid <-
    getitem (match_info request) "origin_conversation_uuid";
  do origin_call_uuid <- getitem (match_info request) "origin_call_uuid";
  do phone_number_owner <- get_phone_number_owner to_phone_number;
  do client <- get_nexmo_client;
  run try_except_nexmo
        (request_provider (send_speech client origin_call_uuid
           (PyStr.fmt phone_number_owner ++ " is joining this call.")))
        (fun er =>
           run print ("error sending speech to " ++ origin_call_uuid
                      ++ ", owner is " ++ PyStr.fmt phone_number_owner);
           print er)
        (fun response => print ("Successfully notified caller. " ++ response));
  do desc <- get_hotline_description;
  let ncco := JList [
    JDict [("action", JStr "talk");
           ("text", JStr ("Hello " ++ PyStr.fmt phone_number_owner
                          ++ ", connecting you to " ++ PyStr.fmt desc ++ "."))];
    JDict [("action", JStr "conversation");
           ("name", JStr origin_conversation_uuid);
           ("startOnEnter", JBool true);
           ("endOnExit", JBool true)]
  ] in
  ret (json_response ncco).

(** The dict passed to [client.send_message]. *)
Definition sms_params (from to text : string) : json :=
  JDict [("from", JStr from); ("to", JStr to); ("text", JStr text)].

(** [GET /webhook/inbound-sms/] *)
Definition inbound_sms (request : request) : M response :=
  do hotline_number <- getitem (query request) "to";
  do from_number <- getitem (query request) "msisdn";
  do message <- getitem (query request) "text";
  do client <- get_nexmo_client;
  do phone_numbers <- get_phone_numbers;
  run for_each phone_numbers (fun phone_number_dict =>
        run request_provider (send_message client
              (sms_params hotline_number (phone phone_number_dict)
                 (from_number ++ ": " ++ message)));
        ret tt);
  do desc <- get_hotline_description;
  run request_provider (send_message client
        (sms_params hotline_number from_number
           ("Thanks for contacting the " ++ PyStr.fmt desc
            ++ ". Someone should follow-up shortly. Note: they may follow up from a different number.")));
  ret {| status := 204; content_type := None; payload := NoBody |}.

(** [GET /recordings/] *)
Definition proxy_recording (request : request) : M response :=
  do recording_url <- getitem (query request) "recording_url";
  do api_key <- environ_get "NEXMO_API_KEY";
  do api_secret <- environ_get "NEXMO_API_SECRET";
  do incoming_api_key <- getitem (query request) "api_key";
  do incoming_api_secret <- getitem (query request) "api_secret";
  if py_ne api_key incoming_api_key || py_ne api_secret incoming_api_secret
  then ret {| status := 401; content_type := None; payload := NoBody |}
  else
    do client <- get_nexmo_client;
    do recording <- request_provider (get_recording client recording_url);
    ret {| status := 200; content_type := Some "audio/mpeg";
           payload := Bytes recording |}.

(** A handler is run on a request from an empty history. *)
Definition handle {A} (m : M A) (w : world) : list event * result A := m w [].

(** ** Vocabulary of the properties *)

(** The client every handler builds from the environment. *)
Definition client_of (w : world) : client :=
  {| key := environ w !! "NEXMO_API_KEY";
     secret := environ w !! "NEXMO_API_SECRET";
     application_id := environ w !! "NEXMO_APP_ID";
     private_key := environ w !! "NEXMO_PRIVATE_KEY_VOICE_APP" |}.

(** The provider answers every request with a value: no request raises. *)
Definition provider_returns (w : world) : Prop :=
  forall t a, exists v, provider w t a = Returns v.

(** The same world with another draw of the random generator. *)
Definition with_entropy (w : world) (n : nat) : world :=
  {| environ := environ w; phone_numbers_json := phone_numbers_json w;
     provider := provider w; entropy := n |}.

(** The flag [is_auto_recording] computes, read off the environment. *)
Definition auto_record_enabled (w : world) : bool :=
  String.eqb (PyStr.lower (default "false" (environ w !! "AUTO_RECORD"))) "true".

(** The provider raises nothing but [nexmo.Error]. *)
Definition provider_raises_only_nexmo_errors (w : world) : Prop :=
  forall t a msg, provider w t a <> RaisesOther msg.

(** The spellings of [true] in either case. *)
Definition spellings_of_true : list string := [
  "true"; "truE"; "trUe"; "trUE"; "tRue"; "tRuE"; "tRUe"; "tRUE";
  "True"; "TruE"; "TrUe"; "TrUE"; "TRue"; "TRuE"; "TRUe"; "TRUE"
].

(** *** Call-control instructions, as the specification names them *)

(** Speak a text. *)
Definition talk (text : string) : json :=
  JDict [("action", JStr "talk"); ("text", JStr text)].

(** Join the caller to the conference and play one track while waiting;
    the conference neither starts on enter nor ends on exit. *)
Definition hold_conference (conversation track : string) : json :=
  JDict [("action", JStr "conversation");
         ("name", JStr conversation);
         ("musicOnHoldUrl", JList [JStr track]);
         ("endOnExit", JBool false);
         ("startOnEnter", JBool false)].

(** The same instruction with recording switched on and the completion
    notification sent to [hook]. *)
Definition recorded_conference (conversation track : string)
    (hook : option string) : json :=
  JDict [("action", JStr "conversation");
         ("name", JStr conversation);
         ("musicOnHoldUrl", JList [JStr track]);
         ("endOnExit", JBool false);
         ("startOnEnter", JBool false);
         ("record", JBool true);
         ("eventUrl", JList [json_of_opt hook])].

(** Join a staff member as the moderator of the conference. *)
Definition moderator_conference (conversation : string) : json :=
  JDict [("action", JStr "conversation");
         ("name", JStr conversation);
         ("startOnEnter", JBool true);
         ("endOnExit", JBool true)].

(** The greeting before any recording notice. *)
Definition greeting_of (w : world) : string :=
  "You've reached the " ++ PyStr.fmt (environ w !! "HOTLINE_DESC") ++ ".".

(** *** Provider requests, as the specification names them *)

(** The request that dials one staff member: to the entry's phone, from
    the hotline number, answered at the conference URL of the two
    identifiers, abandoned when a machine answers. *)
Definition outbound_call (w : world) (host_name hotline conversation call : string)
    (e : entry) : event :=
  Api (create_call (client_of w) (JDict [
    ("to", JList [JDict [("type", JStr "phone"); ("number", JStr (phone e))]]);
    ("from", JDict [("type", JStr "phone"); ("number", JStr hotline)]);
    ("answer_url", JList [JStr (
       "http://" ++ host_name ++ "/webhook/answer_conference_call/"
       ++ conversation ++ "/" ++ call ++ "/")]);
    ("machine_detection", JStr "hangup")])).

(** The SMS that forwards a message to one staff member. *)
Definition staff_sms (w : world) (hotline sender message : string) (e : entry)
  : event :=
  Api (send_message (client_of w) (JDict [
    ("from", JStr hotline);
    ("to", JStr (phone e));
    ("text", JStr (sender ++ ": " ++ message))])).

(** The SMS that acknowledges a message to its sender. *)
Definition acknowledgment_sms (w : world) (hotline sender : string) : event :=
  Api (send_message (client_of w) (JDict [
    ("from", JStr hotline);
    ("to", JStr sender);
    ("text", JStr ("Thanks for contacting the "
       ++ PyStr.fmt (environ w !! "HOTLINE_DESC")
       ++ ". Someone should follow-up shortly. Note: they may follow up from a different number."))])).

(** The notice spoken into the caller's leg when a staff member answers. *)
Definition joining_notice (w : world) (call : string) (owner : option string)
  : api_call :=
  send_speech (client_of w) call (PyStr.fmt owner ++ " is joining this call.").

(** *** Responses *)

Definition unauthorized : response :=
  {| status := 401; content_type := None; payload := NoBody |}.

Definition no_content : response :=
  {| status := 204; content_type := None; payload := NoBody |}.

Definition audio (recording : string) : response :=
  {| status := 200; content_type := Some "audio/mpeg";
     payload := Bytes recording |}.

(** ** Concrete inputs *)

Definition ann : entry := {| name := "Ann"; phone := "1111" |}.
Definition bo : entry := {| name := "Bo"; phone := "2222" |}.

(** A configured hotline; [AUTO_RECORD] is not set. *)
Definition hotline_environ : gmap string string :=
  list_to_map [
    ("HOTLINE_DESC", "CoC hotline");
    ("NEXMO_API_KEY", "key");
    ("NEXMO_API_SECRET", "secret");
    ("NEXMO_APP_ID", "app");
    ("ZAPIER_CATCH_HOOK_RECORDING_FINISHED_URL", "https://hooks.example/catch/1/")
  ].

(** A provider that accepts everything. *)
Definition obliging : list event -> api_call -> outcome :=
  fun _ _ => Returns "ok".

(** A provider whose speech requests fail with [nexmo.Error]. *)
Definition speechless : list event -> api_call -> outcome :=
  fun _ a =>
    match a with
    | send_speech _ _ _ => RaisesNexmoError "call not found"
    | _ => Returns "ok"
    end.

Definition quiet_world : world :=
  {| environ := hotline_environ; phone_numbers_json := [ann; bo];
     provider := obliging; entropy := 7 |}.

Definition recording_world : world :=
  {| environ := <["AUTO_RECORD" := "True"]> hotline_environ;
     phone_numbers_json := [ann; bo];
     provider := obliging; entropy := 7 |}.

Definition speechless_world : world :=
  {| environ := hotline_environ; phone_numbers_json := [ann; bo];
     provider := speechless; entropy := 7 |}.

(** No provider credentials in the environment. *)
Definition unconfigured_world : world :=
  {| environ := {["HOTLINE_DESC" := "CoC hotline"]};
     phone_numbers_json := [ann; bo];
     provider := obliging; entropy := 7 |}.

Definition inbound_call_request : request :=
  {| host := "hotline.example";
     query := [("to", "9999"); ("conversation_uuid", "c1"); ("uuid", "u1")];
     match_info := [] |}.

(** The conversation identifier arrives with a leading blank. *)
Definition padded_call_request : request :=
  {| host := "hotline.example";
     query := [("to", "9999"); ("conversation_uuid", " c1"); ("uuid", "u1")];
     match_info := [] |}.

Definition conference_request (to : string) : request :=
  {| host := "hotline.example";
     query := [("to", to)];
     match_info := [("origin_conversation_uuid", "c1");
                    ("origin_call_uuid", "u1")] |}.

Definition sms_request : request :=
  {| host := "hotline.example";
     query := [("to", "9999"); ("msisdn", "5555"); ("text", "help")];
     match_info := [] |}.

Definition recording_request (api_key api_secret : string) : request :=
  {| host := "hotline.example";
     query := [("recording_url", "https://api.example/rec/1");
               ("api_key", api_key); ("api_secret", api_secret)];
     match_info := [] |}.

(** Credentials are supplied, the recording URL is not. *)
Definition credentials_only_request : request :=
  {| host := "hotline.example";
     query := [("api_key", "key"); ("api_secret", "secret")];
     match_info := [] |}.

(** ** Failure paths: vocabulary and inputs *)

(** The exception a provider answer raises, if it raises one. *)
Definition exception_of (o : outcome) : option exn :=
  match o with
  | Returns _ => None
  | RaisesNexmoError msg => Some (NexmoError msg)
  | RaisesOther msg => Some (OtherException msg)
  end.

(** Every request made while fewer than [n] events have happened is
    answered with a value. *)
Definition accepts_first (w : world) (n : nat) : Prop :=
  forall t a, length t < n -> exists v, provider w t a = Returns v.

(** A provider that refuses, with [nexmo.Error], the request made after
    exactly [n] events, and accepts the others. *)
Definition refusing_after (n : nat) : list event -> api_call -> outcome :=
  fun t _ =>
    if Nat.eqb (length t) n then RaisesNexmoError "rejected" else Returns "ok".

(** A provider that cannot be reached: every request raises an exception
    that is not a [nexmo.Error]. *)
Definition unplugged : list event -> api_call -> outcome :=
  fun _ _ => RaisesOther "connection reset".

(** The configured hotline of [quiet_world] in front of another provider. *)
Definition world_with (p : list event -> api_call -> outcome) : world :=
  {| environ := hotline_environ; phone_numbers_json := [ann; bo];
     provider := p; entropy := 7 |}.

(** The request [answer_call] makes for one staff entry. *)
Definition dial (w : world) (rq : request) (hotline conversation call : string)
    (e : entry) : api_call :=
  create_call (client_of w) (call_params rq hotline conversation call e).

(** The request [inbound_sms] makes for one staff entry. *)
Definition forward (w : world) (hotline sender message : string) (e : entry)
  : api_call :=
  send_message (client_of w)
    (sms_params hotline (phone e) (sender ++ ": " ++ message)).

(** The last request of [inbound_sms]. *)
Definition acknowledge (w : world) (hotline sender : string) : api_call :=
  send_message (client_of w)
    (sms_params hotline sender
       ("Thanks for contacting the " ++ PyStr.fmt (environ w !! "HOTLINE_DESC")
        ++ ". Someone should follow-up shortly. Note: they may follow up from a different number.")).

(** ** Running the monad *)

Section Running.

Context {A B : Type}.

Lemma bind_ok (m : M A) (k : A -> M B) w t t' a :
  m w t = (t', Ok a) -> bind m k w t = k a w t'.
Proof. intros H. unfold bind. now rewrite H. Qed.

Lemma bind_raise (m : M A) (k : A -> M B) w t t' e :
  m w t = (t', Raise e) -> bind m k w t = (t', Raise e).
Proof. intros H. unfold bind. now rewrite H. Qed.

End Running.

Lemma getitem_ok kvs k v w t :
  lookup_first k kvs = Some v -> getitem kvs k w t = (t, Ok v).
Proof. intros H. unfold getitem. now rewrite H. Qed.

Lemma getitem_missing kvs k w t :
  lookup_first k kvs = None -> getitem kvs k w t = (t, Raise (KeyError k)).
Proof. intros H. unfold getitem. now rewrite H. Qed.

Lemma get_nexmo_client_run w t : get_nexmo_client w t = (t, Ok (client_of w)).
Proof. reflexivity. Qed.

Lemma is_auto_recording_run w t :
  is_auto_recording w t = (t, Ok (auto_record_enabled w)).
Proof. reflexivity. Qed.

Lemma request_provider_returns w t a :
  provider_returns w ->
  exists v, request_provider a w t = ((t ++ [Api a])%list, Ok v).
Proof.
  intros Hp. destruct (Hp t a) as [v Hv]. exists v.
  unfold request_provider. now rewrite Hv.
Qed.

Lemma request_provider_trace a w t :
  (request_provider a w t).1 = (t ++ [Api a])%list.
Proof. unfold request_provider. now destruct (provider w t a). Qed.

(** A loop that sends one request per element sends them all, in order,
    when no request raises. *)
Lemma for_each_requests {X} (g : X -> api_call) (xs : list X) w t :
  provider_returns w ->
  for_each xs (fun x => run request_provider (g x); ret tt) w t
  = ((t ++ map (fun x => Api (g x)) xs)%list, Ok tt).
Proof.
  intros Hp. revert t. induction xs as [|x xs IH]; intros t; simpl.
  - now rewrite app_nil_r.
  - destruct (request_provider_returns w t (g x) Hp) as [v Hv].
    unfold bind at 1. unfold bind at 1. rewrite Hv. unfold ret at 1.
    rewrite IH. now rewrite <- app_assoc.
Qed.

(** A loop stops at the first request that raises: the requests before it
    were sent, the ones after it are not. *)
Lemma for_each_stops {X} (g : X -> api_call) (xs : list X) w t :
  exists n,
    n <= length xs /\
    (for_each xs (fun x => run request_provider (g x); ret tt) w t).1
    = (t ++ map (fun x => Api (g x)) (firstn n xs))%list.
Proof.
  revert t. induction xs as [|x xs IH]; intros t.
  - exists 0. split; [lia|]. simpl. now rewrite app_nil_r.
  - simpl. unfold bind at 1. unfold bind at 1.
    pose proof (request_provider_trace (g x) w t) as Ht.
    destruct (request_provider (g x) w t) as [t' [v|e]]; simpl in Ht; subst t'.
    + unfold ret at 1. destruct (IH (t ++ [Api (g x)])%list) as [n [Hn Hrun]].
      exists (S n). split; [simpl; lia|]. rewrite Hrun. simpl.
      now rewrite <- app_assoc.
    + exists 1. split; [simpl; lia|]. simpl. now destruct xs.
Qed.

Lemma random_choice_playlist w t :
  exists track,
    nth_error MUSIC_WHILE_YOU_WAIT (entropy w mod 5) = Some track /\
    In track MUSIC_WHILE_YOU_WAIT /\
    random_choice MUSIC_WHILE_YOU_WAIT w t = (t, Ok track).
Proof.
  assert (Hlt : entropy w mod 5 < 5) by (apply Nat.mod_upper_bound; lia).
  destruct (nth_error MUSIC_WHILE_YOU_WAIT (entropy w mod 5)) as [track|] eqn:E.
  - exists track. split; [reflexivity|]. split.
    + eapply nth_error_In; eassumption.
    + unfold random_choice.
      change (length MUSIC_WHILE_YOU_WAIT) with 5. now rewrite E.
  - apply nth_error_None in E. simpl in E. lia.
Qed.

(** One step of a run: the next bound computation returns a value. *)
Ltac run_step :=
  first
    [ erewrite bind_ok by (apply getitem_ok; eassumption)
    | erewrite bind_ok by apply get_nexmo_client_run
    | erewrite bind_ok by apply is_auto_recording_run
    | erewrite bind_ok by
        (cbv [bind ret environ_get get_phone_numbers get_hotline_description
              get_phone_number_owner];
         reflexivity) ].

(** The whole run of [answer_call] when its three parameters are present
    and the provider accepts every call. *)
Lemma answer_call_run w rq hotline conv call :
  lookup_first "to" (query rq) = Some hotline ->
  lookup_first "conversation_uuid" (query rq) = Some conv ->
  lookup_first "uuid" (query rq) = Some call ->
  provider_returns w ->
  exists track,
    nth_error MUSIC_WHILE_YOU_WAIT (entropy w mod 5) = Some track /\
    handle (answer_call rq) w =
    (map (outbound_call w (host rq) hotline (PyStr.strip conv) (PyStr.strip call))
         (phone_numbers_json w),
     Ok (json_response (JList
       (if auto_record_enabled w
        then [talk (greeting_of w ++ " This call is recorded.");
              recorded_conference (PyStr.strip conv) track
                (environ w !! "ZAPIER_CATCH_HOOK_RECORDING_FINISHED_URL")]
        else [talk (greeting_of w);
              hold_conference (PyStr.strip conv) track])))).
Proof.
  intros Hto Hconv Hcall Hp.
  destruct (random_choice_playlist w []) as [track [Hnth [_ Hch]]].
  exists track. split; [exact Hnth|].
  unfold handle, answer_call.
  do 3 run_step. cbv zeta.
  run_step.
  erewrite bind_ok by exact Hch.
  run_step.
  destruct (auto_record_enabled w).
  - do 3 run_step.
    erewrite bind_ok by (apply for_each_requests; assumption).
    reflexivity.
  - do 3 run_step.
    erewrite bind_ok by (apply for_each_requests; assumption).
    reflexivity.
Qed.

Example strip_drops_outer_blanks : PyStr.strip "  c 1 " = "c 1".
Proof. reflexivity. Qed.

Example strip_keeps_clean_identifier :
  PyStr.strip "CON-6a2f" = "CON-6a2f".
Proof. reflexivity. Qed.

Example lower_mixed_case : PyStr.lower "TRuE" = "true".
Proof. reflexivity. Qed.

Lemma length_append (s1 s2 : string) :
  String.length (s1 ++ s2) = String.length s1 + String.length s2.
Proof. induction s1 as [|c s1 IH]; simpl; [reflexivity | now rewrite IH]. Qed.

Lemma append_not_self (s suffix : string) :
  suffix <> "" -> s ++ suffix <> s.
Proof.
  intros Hne H. apply (f_equal String.length) in H.
  rewrite length_append in H.
  destruct suffix; [congruence | simpl in H; lia].
Qed.

Lemma auto_recording_flag w b :
  handle is_auto_recording w = ([], Ok b) -> auto_record_enabled w = b.
Proof.
  unfold handle. rewrite is_auto_recording_run. now intros [= ->].
Qed.

Lemma provider_returns_with_entropy w n :
  provider_returns w -> provider_returns (with_entropy w n).
Proof. intros Hp t a. exact (Hp t a). Qed.

(** ** Inbound call *)

(** C1 (as amended). When the three query parameters are present and the
    provider accepts every call, [answer_call] sends exactly one
    call-creation request per staff entry, in directory order: to the
    entry's phone, from the dialed hotline number, abandoned on machine
    detection, and answered at
    [http://<host>/webhook/answer_conference_call/<c>/<u>/] where [<c>]
    and [<u>] are the conversation and call identifiers with the blanks
    around them stripped. *)
Theorem answer_call_dials_every_staff_member w rq hotline conv call :
  lookup_first "to" (query rq) = Some hotline ->
  lookup_first "conversation_uuid" (query rq) = Some conv ->
  lookup_first "uuid" (query rq) = Some call ->
  provider_returns w ->
  (handle (answer_call rq) w).1
  = map (outbound_call w (host rq) hotline (PyStr.strip conv) (PyStr.strip call))
        (phone_numbers_json w)
  /\ length (handle (answer_call rq) w).1 = length (phone_numbers_json w).
Proof.
  intros Hto Hconv Hcall Hp.
  destruct (answer_call_run w rq hotline conv call Hto Hconv Hcall Hp)
    as [track [_ Hrun]].
  rewrite Hrun. simpl. split; [reflexivity|]. apply length_map.
Qed.

Lemma answer_call_dials_every_staff_member_witness :
  (handle (answer_call padded_call_request) quiet_world).1
  = map (outbound_call quiet_world "hotline.example" "9999" "c1" "u1") [ann; bo]
  /\ length (handle (answer_call padded_call_request) quiet_world).1 = 2.
Proof.
  apply (answer_call_dials_every_staff_member
           quiet_world padded_call_request "9999" " c1" "u1");
    [reflexivity | reflexivity | reflexivity
    | intros t a; exists "ok"; reflexivity].
Defined.

(** C1 as stated fails: with the conversation identifier [" c1"] the
    answer URLs do not embed the identifier that was given. *)
Lemma answer_call_url_embeds_given_identifiers_counterexample :
  lookup_first "conversation_uuid" (query padded_call_request) = Some " c1"
  /\ (handle (answer_call padded_call_request) quiet_world).1
     <> map (outbound_call quiet_world "hotline.example" "9999" " c1" "u1")
            (phone_numbers_json quiet_world).
Proof.
  split; [reflexivity|]. vm_compute. discriminate.
Qed.

(** C2 (as amended). When auto-recording is enabled (and the parameters
    are present and the provider accepts every call), the greeting is the
    plain greeting followed by [" This call is recorded."], and the
    conference instruction carries [record] set to true and an [eventUrl]
    list holding the configured recording-completion webhook URL. *)
Theorem answer_call_recording_enabled w rq hotline conv call :
  lookup_first "to" (query rq) = Some hotline ->
  lookup_first "conversation_uuid" (query rq) = Some conv ->
  lookup_first "uuid" (query rq) = Some call ->
  provider_returns w ->
  handle is_auto_recording w = ([], Ok true) ->
  exists track,
    In track MUSIC_WHILE_YOU_WAIT /\
    (handle (answer_call rq) w).2
    = Ok (json_response (JList [
        talk (greeting_of w ++ " This call is recorded.");
        recorded_conference (PyStr.strip conv) track
          (environ w !! "ZAPIER_CATCH_HOOK_RECORDING_FINISHED_URL")])).
Proof.
  intros Hto Hconv Hcall Hp Hrec.
  apply auto_recording_flag in Hrec.
  destruct (answer_call_run w rq hotline conv call Hto Hconv Hcall Hp)
    as [track [Hnth Hrun]].
  exists track. split; [eapply nth_error_In; eassumption|].
  now rewrite Hrun, Hrec.
Qed.

Lemma answer_call_recording_enabled_witness :
  exists track,
    In track MUSIC_WHILE_YOU_WAIT /\
    (handle (answer_call inbound_call_request) recording_world).2
    = Ok (json_response (JList [
        talk "You've reached the CoC hotline. This call is recorded.";
        recorded_conference "c1" track (Some "https://hooks.example/catch/1/")])).
Proof.
  apply (answer_call_recording_enabled
           recording_world inbound_call_request "9999" "c1" "u1");
    [reflexivity | reflexivity | reflexivity
    | intros t a; exists "ok"; reflexivity
    | reflexivity].
Defined.

(** C2 as stated fails: with recording enabled the greeting is not the
    plain greeting followed by [", this call is recorded"], and that text
    occurs nowhere in it. *)
Lemma answer_call_recording_clause_counterexample :
  handle is_auto_recording recording_world = ([], Ok true)
  /\ (forall conference,
        (handle (answer_call inbound_call_request) recording_world).2
        <> Ok (json_response (JList [
             talk (greeting_of recording_world ++ ", this call is recorded");
             conference])))
  /\ (exists text conference,
        (handle (answer_call inbound_call_request) recording_world).2
        = Ok (json_response (JList [talk text; conference]))
        /\ String.index 0 ", this call is recorded" text = None).
Proof.
  split; [reflexivity|]. split.
  - intros conference. vm_compute. intros H. discriminate H.
  - eexists. eexists. split; [vm_compute; reflexivity|]. reflexivity.
Qed.

(** C3 (as amended). When auto-recording is disabled (and the parameters
    are present and the provider accepts every call), the response is
    exactly the two instructions [talk "You've reached the <description>."]
    and a conference whose name is the conversation identifier with the
    blanks around it stripped, with [endOnExit] and [startOnEnter] false
    and one hold-music track; the greeting carries no recording notice,
    the conference has no [record] key, and the tracks that can occur are
    exactly those of the playlist. *)
Theorem answer_call_recording_disabled w rq hotline conv call :
  lookup_first "to" (query rq) = Some hotline ->
  lookup_first "conversation_uuid" (query rq) = Some conv ->
  lookup_first "uuid" (query rq) = Some call ->
  provider_returns w ->
  handle is_auto_recording w = ([], Ok false) ->
  (exists track,
     In track MUSIC_WHILE_YOU_WAIT /\
     (handle (answer_call rq) w).2
     = Ok (json_response (JList [
         JDict [("action", JStr "talk");
                ("text", JStr ("You've reached the "
                   ++ PyStr.fmt (environ w !! "HOTLINE_DESC") ++ "."))];
         JDict [("action", JStr "conversation");
                ("name", JStr (PyStr.strip conv));
                ("musicOnHoldUrl", JList [JStr track]);
                ("endOnExit", JBool false);
                ("startOnEnter", JBool false)]])))
  /\ (forall track,
        (handle (answer_call rq) w).2
        <> Ok (json_response (JList [
             talk (greeting_of w ++ " This call is recorded.");
             hold_conference (PyStr.strip conv) track])))
  /\ (forall track hook,
        (handle (answer_call rq) w).2
        <> Ok (json_response (JList [
             talk (greeting_of w);
             recorded_conference (PyStr.strip conv) track hook])))
  /\ (forall url,
        In url MUSIC_WHILE_YOU_WAIT <->
        exists n,
          (handle (answer_call rq) (with_entropy w n)).2
          = Ok (json_response (JList [
              talk (greeting_of w); hold_conference (PyStr.strip conv) url]))).
Proof.
  intros Hto Hconv Hcall Hp Hrec.
  apply auto_recording_flag in Hrec.
  destruct (answer_call_run w rq hotline conv call Hto Hconv Hcall Hp)
    as [track [Hnth Hrun]].
  rewrite Hrun, Hrec. cbn [snd].
  split; [|split; [|split]].
  - exists track. split; [eapply nth_error_In; eassumption | reflexivity].
  - intros track' H.
    assert (E : greeting_of w ++ " This call is recorded." = greeting_of w)
      by (unfold talk, json_response in H; congruence).
    revert E. apply append_not_self. discriminate.
  - intros track' hook. discriminate.
  - intros url. split.
    + intros Hin. apply In_nth_error in Hin. destruct Hin as [n Hn].
      assert (Hlt : n < 5).
      { change 5 with (length MUSIC_WHILE_YOU_WAIT).
        apply nth_error_Some. now rewrite Hn. }
      exists n.
      destruct (answer_call_run (with_entropy w n) rq hotline conv call
                  Hto Hconv Hcall (provider_returns_with_entropy w n Hp))
        as [track' [Hnth' Hrun']].
      rewrite Hrun'. cbn [snd].
      change (auto_record_enabled (with_entropy w n)) with (auto_record_enabled w).
      rewrite Hrec.
      cbn [entropy with_entropy] in Hnth'.
      rewrite Nat.mod_small in Hnth' by exact Hlt.
      rewrite Hn in Hnth'. now injection Hnth' as <-.
    + intros [n Hn].
      destruct (answer_call_run (with_entropy w n) rq hotline conv call
                  Hto Hconv Hcall (provider_returns_with_entropy w n Hp))
        as [track' [Hnth' Hrun']].
      rewrite Hrun' in Hn. cbn [snd] in Hn.
      change (auto_record_enabled (with_entropy w n))
        with (auto_record_enabled w) in Hn.
      rewrite Hrec in Hn.
      injection Hn as <-. eapply nth_error_In; eassumption.
Qed.

Lemma answer_call_recording_disabled_witness :
  (exists track,
     In track MUSIC_WHILE_YOU_WAIT /\
     (handle (answer_call padded_call_request) quiet_world).2
     = Ok (json_response (JList [
         talk "You've reached the CoC hotline."; hold_conference "c1" track])))
  /\ (forall url,
        In url MUSIC_WHILE_YOU_WAIT <->
        exists n,
          (handle (answer_call padded_call_request) (with_entropy quiet_world n)).2
          = Ok (json_response (JList [
              talk "You've reached the CoC hotline."; hold_conference "c1" url]))).
Proof.
  destruct (answer_call_recording_disabled
              quiet_world padded_call_request "9999" " c1" "u1")
    as [Hresponse [_ [_ Htracks]]];
    [reflexivity | reflexivity | reflexivity
    | intros t a; exists "ok"; reflexivity
    | reflexivity
    | split; [exact Hresponse | exact Htracks]].
Defined.

(** C3 as stated fails: with the conversation identifier [" c1"] the
    conference is not named by the identifier that was supplied. *)
Lemma answer_call_conference_name_counterexample :
  handle is_auto_recording quiet_world = ([], Ok false)
  /\ lookup_first "conversation_uuid" (query padded_call_request) = Some " c1"
  /\ forall track,
       (handle (answer_call padded_call_request) quiet_world).2
       <> Ok (json_response (JList [
            talk "You've reached the CoC hotline.";
            hold_conference " c1" track])).
Proof.
  split; [reflexivity|]. split; [reflexivity|].
  intros track. vm_compute. intros H. discriminate H.
Qed.

(** C8. When one of the parameters [to], [conversation_uuid] and [uuid]
    is missing from the query, [answer_call] raises [KeyError] on a
    missing one: it returns no instruction list and has sent no request
    to the provider. *)
Theorem answer_call_missing_parameter w rq :
  lookup_first "to" (query rq) = None
  \/ lookup_first "conversation_uuid" (query rq) = None
  \/ lookup_first "uuid" (query rq) = None ->
  exists k,
    In k ["to"; "conversation_uuid"; "uuid"]
    /\ lookup_first k (query rq) = None
    /\ handle (answer_call rq) w = ([], Raise (KeyError k)).
Proof.
  intros Hmissing. unfold handle, answer_call.
  destruct (lookup_first "to" (query rq)) as [hotline|] eqn:Hto.
  - run_step.
    destruct (lookup_first "conversation_uuid" (query rq)) as [conv|] eqn:Hconv.
    + run_step.
      destruct (lookup_first "uuid" (query rq)) as [call|] eqn:Hcall.
      * exfalso. destruct Hmissing as [H|[H|H]]; discriminate H.
      * exists "uuid". split; [simpl; tauto|]. split; [exact Hcall|].
        erewrite bind_raise by (apply getitem_missing; exact Hcall).
        reflexivity.
    + exists "conversation_uuid". split; [simpl; tauto|]. split; [exact Hconv|].
      erewrite bind_raise by (apply getitem_missing; exact Hconv).
      reflexivity.
  - exists "to". split; [simpl; tauto|]. split; [exact Hto|].
    erewrite bind_raise by (apply getitem_missing; exact Hto).
    reflexivity.
Qed.

Lemma answer_call_missing_parameter_witness :
  exists k,
    In k ["to"; "conversation_uuid"; "uuid"]
    /\ lookup_first k (query credentials_only_request) = None
    /\ handle (answer_call credentials_only_request) quiet_world
       = ([], Raise (KeyError k)).
Proof.
  apply (answer_call_missing_parameter quiet_world credentials_only_request).
  left. reflexivity.
Defined.

(** ** Conference joined *)

Lemma owner_in_first_match staff before e after to :
  staff = (before ++ e :: after)%list ->
  phone e = to ->
  (forall e', In e' before -> phone e' <> to) ->
  owner_in staff to = Some (name e).
Proof.
  intros -> Hphone. induction before as [|b before IH]; intros Hbefore; simpl.
  - rewrite Hphone. now rewrite String.eqb_refl.
  - destruct (String.eqb_spec (phone b) to) as [Heq|_].
    + exfalso. apply (Hbefore b); [now left | exact Heq].
    + apply IH. intros e' He'. apply Hbefore. now right.
Qed.

Lemma owner_in_no_match staff to :
  (forall e, In e staff -> phone e <> to) -> owner_in staff to = None.
Proof.
  induction staff as [|b staff IH]; intros Hnone; simpl; [reflexivity|].
  destruct (String.eqb_spec (phone b) to) as [Heq|_].
  - exfalso. apply (Hnone b); [now left | exact Heq].
  - apply IH. intros e He. apply Hnone. now right.
Qed.

(** The whole run of [answer_conference_call] when its parameters are
    present, by what the provider does with the joining notice. *)
Lemma answer_conference_call_run w rq to conv call :
  lookup_first "to" (query rq) = Some to ->
  lookup_first "origin_conversation_uuid" (match_info rq) = Some conv ->
  lookup_first "origin_call_uuid" (match_info rq) = Some call ->
  let owner := owner_in (phone_numbers_json w) to in
  let notice := joining_notice w call owner in
  let answer := Ok (json_response (JList [
    talk ("Hello " ++ PyStr.fmt owner ++ ", connecting you to "
          ++ PyStr.fmt (environ w !! "HOTLINE_DESC") ++ ".");
    moderator_conference conv])) in
  handle (answer_conference_call rq) w =
  match provider w [] notice with
  | Returns v =>
      ([Api notice; Printed ("Successfully notified caller. " ++ v)], answer)
  | RaisesNexmoError msg =>
      ([Api notice;
        Printed ("error sending speech to " ++ call ++ ", owner is "
                 ++ PyStr.fmt owner);
        Printed msg], answer)
  | RaisesOther msg => ([Api notice], Raise (OtherException msg))
  end.
Proof.
  intros Hto Hconv Hcall owner notice answer.
  unfold handle, answer_conference_call.
  do 5 run_step.
  unfold bind at 1, try_except_nexmo, request_provider.
  fold owner. fold (joining_notice w call owner). fold notice.
  destruct (provider w [] notice) as [v|msg|msg]; reflexivity.
Qed.

(** C6. When its parameters are present, [answer_conference_call]
    returns the two instructions [talk "Hello <name>, connecting you to
    <description>."] and a conference joining the origin conversation with
    [startOnEnter] and [endOnExit] true, and it returns the very same list
    when the joining notice is accepted by the provider and when it raises
    [nexmo.Error]; in the second case the error is printed and goes no
    further. *)
Theorem answer_conference_call_survives_provider_error
    w_ok w_err rq to conv call v msg :
  environ w_ok = environ w_err ->
  phone_numbers_json w_ok = phone_numbers_json w_err ->
  lookup_first "to" (query rq) = Some to ->
  lookup_first "origin_conversation_uuid" (match_info rq) = Some conv ->
  lookup_first "origin_call_uuid" (match_info rq) = Some call ->
  let owner := owner_in (phone_numbers_json w_ok) to in
  provider w_ok [] (joining_notice w_ok call owner) = Returns v ->
  provider w_err [] (joining_notice w_err call owner) = RaisesNexmoError msg ->
  let answer := Ok (json_response (JList [
    JDict [("action", JStr "talk");
           ("text", JStr ("Hello " ++ PyStr.fmt owner ++ ", connecting you to "
              ++ PyStr.fmt (environ w_ok !! "HOTLINE_DESC") ++ "."))];
    JDict [("action", JStr "conversation");
           ("name", JStr conv);
           ("startOnEnter", JBool true);
           ("endOnExit", JBool true)]])) in
  (handle (answer_conference_call rq) w_ok).2 = answer
  /\ (handle (answer_conference_call rq) w_err).2 = answer
  /\ (handle (answer_conference_call rq) w_err).1
     = [Api (joining_notice w_err call owner);
        Printed ("error sending speech to " ++ call ++ ", owner is "
                 ++ PyStr.fmt owner);
        Printed msg].
Proof.
  intros Henv Hstaff Hto Hconv Hcall owner Hok Herr answer.
  rewrite (answer_conference_call_run w_ok rq to conv call Hto Hconv Hcall).
  rewrite (answer_conference_call_run w_err rq to conv call Hto Hconv Hcall).
  rewrite <- Hstaff, <- Henv. fold owner. cbv zeta.
  rewrite Hok, Herr. repeat split.
Qed.

Lemma answer_conference_call_survives_provider_error_witness :
  let answer := Ok (json_response (JList [
    talk "Hello Bo, connecting you to CoC hotline.";
    moderator_conference "c1"])) in
  (handle (answer_conference_call (conference_request "2222")) quiet_world).2
  = answer
  /\ (handle (answer_conference_call (conference_request "2222"))
        speechless_world).2 = answer
  /\ (handle (answer_conference_call (conference_request "2222"))
        speechless_world).1
     = [Api (joining_notice speechless_world "u1" (Some "Bo"));
        Printed "error sending speech to u1, owner is Bo";
        Printed "call not found"].
Proof.
  apply (answer_conference_call_survives_provider_error
           quiet_world speechless_world (conference_request "2222")
           "2222" "c1" "u1" "ok" "call not found");
    reflexivity.
Defined.

(** C7. [answer_conference_call] finds the staff name by comparing [to]
    with the phone of each directory entry: the name of the first entry
    whose phone equals [to] is the name in the welcome and in the joining
    notice; when no entry matches, the lookup gives [None], no exception
    is raised for it, and both texts carry [None] written out in place of
    a name. *)
Theorem answer_conference_call_names_the_owner w rq to conv call :
  lookup_first "to" (query rq) = Some to ->
  lookup_first "origin_conversation_uuid" (match_info rq) = Some conv ->
  lookup_first "origin_call_uuid" (match_info rq) = Some call ->
  provider_raises_only_nexmo_errors w ->
  (forall before e after,
      phone_numbers_json w = (before ++ e :: after)%list ->
      phone e = to ->
      (forall e', In e' before -> phone e' <> to) ->
      handle (get_phone_number_owner to) w = ([], Ok (Some (name e)))
      /\ (handle (answer_conference_call rq) w).2
         = Ok (json_response (JList [
             talk ("Hello " ++ name e ++ ", connecting you to "
                   ++ PyStr.fmt (environ w !! "HOTLINE_DESC") ++ ".");
             moderator_conference conv]))
      /\ exists rest,
           (handle (answer_conference_call rq) w).1
           = Api (send_speech (client_of w) call
                    (name e ++ " is joining this call.")) :: rest)
  /\ ((forall e, In e (phone_numbers_json w) -> phone e <> to) ->
      handle (get_phone_number_owner to) w = ([], Ok None)
      /\ (handle (answer_conference_call rq) w).2
         = Ok (json_response (JList [
             talk ("Hello " ++ "None" ++ ", connecting you to "
                   ++ PyStr.fmt (environ w !! "HOTLINE_DESC") ++ ".");
             moderator_conference conv]))
      /\ exists rest,
           (handle (answer_conference_call rq) w).1
           = Api (send_speech (client_of w) call
                    ("None" ++ " is joining this call.")) :: rest).
Proof.
  intros Hto Hconv Hcall Honly.
  pose proof (answer_conference_call_run w rq to conv call Hto Hconv Hcall)
    as Hrun.
  cbv zeta in Hrun.
  split.
  - intros before e after Hstaff Hphone Hbefore.
    pose proof (owner_in_first_match _ before e after to Hstaff Hphone Hbefore)
      as Howner.
    rewrite Howner in Hrun. rewrite Hrun.
    split; [unfold handle, get_phone_number_owner; run_step;
            unfold ret; now rewrite Howner|].
    unfold joining_notice.
    destruct (provider w [] _) as [v|msg|msg] eqn:Hanswer.
    + split; [reflexivity | eexists; reflexivity].
    + split; [reflexivity | eexists; reflexivity].
    + exfalso. exact (Honly _ _ _ Hanswer).
  - intros Hnone.
    pose proof (owner_in_no_match _ to Hnone) as Howner.
    rewrite Howner in Hrun. rewrite Hrun.
    split; [unfold handle, get_phone_number_owner; run_step;
            unfold ret; now rewrite Howner|].
    unfold joining_notice.
    destruct (provider w [] _) as [v|msg|msg] eqn:Hanswer.
    + split; [reflexivity | eexists; reflexivity].
    + split; [reflexivity | eexists; reflexivity].
    + exfalso. exact (Honly _ _ _ Hanswer).
Qed.

Lemma answer_conference_call_names_the_owner_witness :
  ((handle (answer_conference_call (conference_request "2222")) speechless_world).2
   = Ok (json_response (JList [
       talk "Hello Bo, connecting you to CoC hotline.";
       moderator_conference "c1"])))
  /\ ((handle (answer_conference_call (conference_request "3333")) quiet_world).2
      = Ok (json_response (JList [
          talk "Hello None, connecting you to CoC hotline.";
          moderator_conference "c1"]))).
Proof.
  split.
  - destruct (answer_conference_call_names_the_owner
                speechless_world (conference_request "2222") "2222" "c1" "u1")
      as [Hfirst _];
      [reflexivity | reflexivity | reflexivity
      | intros t a msg H; destruct a; discriminate H |].
    destruct (Hfirst [ann] bo []) as [_ [Hanswer _]];
      [reflexivity | reflexivity
      | intros e' [<-|[]]; discriminate
      | exact Hanswer].
  - destruct (answer_conference_call_names_the_owner
                quiet_world (conference_request "3333") "3333" "c1" "u1")
      as [_ Hnone];
      [reflexivity | reflexivity | reflexivity
      | intros t a msg H; discriminate H |].
    destruct Hnone as [_ [Hanswer _]];
      [intros e [<-|[<-|[]]]; discriminate | exact Hanswer].
Defined.

(** ** Inbound SMS *)

(** C5. When the three query parameters are present and the provider
    accepts every send, [inbound_sms] sends exactly N+1 messages for a
    directory of N entries: first one per entry, in directory order, from
    the hotline number to the entry's phone with the text
    [<sender>: <message>], then one acknowledgment from the hotline number
    to the sender; it answers with an empty 204 response. *)
Theorem inbound_sms_forwards_and_acknowledges w rq hotline sender message :
  lookup_first "to" (query rq) = Some hotline ->
  lookup_first "msisdn" (query rq) = Some sender ->
  lookup_first "text" (query rq) = Some message ->
  provider_returns w ->
  handle (inbound_sms rq) w
  = ((map (fun e => Api (send_message (client_of w) (JDict [
                      ("from", JStr hotline);
                      ("to", JStr (phone e));
                      ("text", JStr (sender ++ ": " ++ message))])))
          (phone_numbers_json w)
      ++ [acknowledgment_sms w hotline sender])%list,
     Ok {| status := 204; content_type := None; payload := NoBody |})
  /\ length (handle (inbound_sms rq) w).1 = length (phone_numbers_json w) + 1.
Proof.
  intros Hto Hfrom Htext Hp.
  assert (Hrun : handle (inbound_sms rq) w
    = ((map (staff_sms w hotline sender message) (phone_numbers_json w)
        ++ [acknowledgment_sms w hotline sender])%list, Ok no_content)).
  { unfold handle, inbound_sms.
    do 5 run_step.
    erewrite bind_ok by (apply for_each_requests; assumption).
    run_step.
    destruct (request_provider_returns w
                ([] ++ map (fun x => Api (send_message (client_of w)
                     (sms_params hotline (phone x) (sender ++ ": " ++ message))))
                   (phone_numbers_json w))%list
                (send_message (client_of w)
                   (sms_params hotline sender
                      ("Thanks for contacting the "
                       ++ PyStr.fmt (environ w !! "HOTLINE_DESC")
                       ++ ". Someone should follow-up shortly. Note: they may follow up from a different number.")))
                Hp) as [v Hv].
    erewrite bind_ok by exact Hv.
    reflexivity. }
  rewrite Hrun. split; [reflexivity|].
  cbn [fst]. rewrite length_app, length_map. reflexivity.
Qed.

Lemma inbound_sms_forwards_and_acknowledges_witness :
  handle (inbound_sms sms_request) quiet_world
  = ([staff_sms quiet_world "9999" "5555" "help" ann;
      staff_sms quiet_world "9999" "5555" "help" bo;
      acknowledgment_sms quiet_world "9999" "5555"],
     Ok no_content)
  /\ length (handle (inbound_sms sms_request) quiet_world).1 = 2 + 1.
Proof.
  apply (inbound_sms_forwards_and_acknowledges
           quiet_world sms_request "9999" "5555" "help");
    [reflexivity | reflexivity | reflexivity
    | intros t a; exists "ok"; reflexivity].
Defined.

(** ** Recording download *)

Lemma py_ne_false a b : py_ne a b = false <-> a = Some b.
Proof.
  destruct a as [s|]; simpl.
  - rewrite negb_false_iff, String.eqb_eq. split; congruence.
  - split; discriminate.
Qed.

Lemma py_ne_true a b : py_ne a b = true <-> a <> Some b.
Proof.
  rewrite <- py_ne_false. destruct (py_ne a b); split; congruence.
Qed.

(** The run of [proxy_recording] when its three parameters are present. *)
Lemma proxy_recording_run w rq url k s :
  lookup_first "recording_url" (query rq) = Some url ->
  lookup_first "api_key" (query rq) = Some k ->
  lookup_first "api_secret" (query rq) = Some s ->
  handle (proxy_recording rq) w =
  if py_ne (environ w !! "NEXMO_API_KEY") k
     || py_ne (environ w !! "NEXMO_API_SECRET") s
  then ([], Ok unauthorized)
  else match provider w [] (get_recording (client_of w) url) with
       | Returns recording =>
           ([Api (get_recording (client_of w) url)], Ok (audio recording))
       | RaisesNexmoError msg =>
           ([Api (get_recording (client_of w) url)], Raise (NexmoError msg))
       | RaisesOther msg =>
           ([Api (get_recording (client_of w) url)], Raise (OtherException msg))
       end.
Proof.
  intros Hurl Hk Hs. unfold handle, proxy_recording.
  do 5 run_step.
  destruct (py_ne _ k || py_ne _ s); [reflexivity|].
  run_step. unfold bind, request_provider.
  destruct (provider w [] _); reflexivity.
Qed.

(** C4. For every supplied pair of credentials (with the recording URL),
    [proxy_recording] answers with an empty 401 response and asks the
    provider for nothing when the supplied key is not the configured key
    or the supplied secret is not the configured secret; when both are
    the configured ones it fetches the recording at the supplied URL and
    returns the bytes the provider gives, with status 200 and content type
    [audio/mpeg]. *)
Theorem proxy_recording_checks_credentials w rq url k s :
  lookup_first "recording_url" (query rq) = Some url ->
  lookup_first "api_key" (query rq) = Some k ->
  lookup_first "api_secret" (query rq) = Some s ->
  (environ w !! "NEXMO_API_KEY" <> Some k
   \/ environ w !! "NEXMO_API_SECRET" <> Some s ->
   handle (proxy_recording rq) w
   = ([], Ok {| status := 401; content_type := None; payload := NoBody |}))
  /\ (environ w !! "NEXMO_API_KEY" = Some k ->
      environ w !! "NEXMO_API_SECRET" = Some s ->
      forall recording,
        provider w [] (get_recording (client_of w) url) = Returns recording ->
        handle (proxy_recording rq) w
        = ([Api (get_recording (client_of w) url)],
           Ok {| status := 200; content_type := Some "audio/mpeg";
                 payload := Bytes recording |})).
Proof.
  intros Hurl Hk Hs.
  rewrite (proxy_recording_run w rq url k s Hurl Hk Hs). split.
  - intros Hdiffer.
    assert (E : py_ne (environ w !! "NEXMO_API_KEY") k
                || py_ne (environ w !! "NEXMO_API_SECRET") s = true).
    { apply orb_true_iff. now rewrite !py_ne_true. }
    now rewrite E.
  - intros Hkey Hsecret recording Hfetch.
    apply py_ne_false in Hkey, Hsecret.
    now rewrite Hkey, Hsecret, Hfetch.
Qed.

Lemma proxy_recording_checks_credentials_witness :
  handle (proxy_recording (recording_request "key" "wrong")) quiet_world
  = ([], Ok unauthorized)
  /\ handle (proxy_recording (recording_request "key" "secret")) quiet_world
     = ([Api (get_recording (client_of quiet_world) "https://api.example/rec/1")],
        Ok (audio "ok")).
Proof.
  split.
  - apply (proj1 (proxy_recording_checks_credentials
                    quiet_world (recording_request "key" "wrong")
                    "https://api.example/rec/1" "key" "wrong"
                    eq_refl eq_refl eq_refl)).
    right. vm_compute. discriminate.
  - apply (proj2 (proxy_recording_checks_credentials
                    quiet_world (recording_request "key" "secret")
                    "https://api.example/rec/1" "key" "secret"
                    eq_refl eq_refl eq_refl));
      reflexivity.
Defined.

(** C9 (as amended). When the provider key or the provider secret is
    missing from the environment, [proxy_recording] answers 401 to every
    request that supplies [recording_url], [api_key] and [api_secret],
    and whatever the request, it never asks the provider for a recording
    and never answers with anything but 401. *)
Theorem proxy_recording_unconfigured w :
  environ w !! "NEXMO_API_KEY" = None
  \/ environ w !! "NEXMO_API_SECRET" = None ->
  (forall rq url k s,
      lookup_first "recording_url" (query rq) = Some url ->
      lookup_first "api_key" (query rq) = Some k ->
      lookup_first "api_secret" (query rq) = Some s ->
      handle (proxy_recording rq) w = ([], Ok unauthorized))
  /\ (forall rq,
        (handle (proxy_recording rq) w).1 = []
        /\ forall r, (handle (proxy_recording rq) w).2 = Ok r -> r = unauthorized).
Proof.
  intros Hmissing.
  assert (Hgate : forall rq url k s,
      lookup_first "recording_url" (query rq) = Some url ->
      lookup_first "api_key" (query rq) = Some k ->
      lookup_first "api_secret" (query rq) = Some s ->
      handle (proxy_recording rq) w = ([], Ok unauthorized)).
  { intros rq url k s Hurl Hk Hs.
    rewrite (proxy_recording_run w rq url k s Hurl Hk Hs).
    destruct Hmissing as [H|H]; rewrite H; simpl;
      [reflexivity | now rewrite orb_true_r]. }
  split; [exact Hgate|].
  intros rq.
  destruct (lookup_first "recording_url" (query rq)) as [url|] eqn:Hurl;
    [destruct (lookup_first "api_key" (query rq)) as [k|] eqn:Hk;
     [destruct (lookup_first "api_secret" (query rq)) as [s|] eqn:Hs|]|].
  - rewrite (Hgate rq url k s Hurl Hk Hs). split; [reflexivity|].
    now intros r [= <-].
  - unfold handle, proxy_recording. do 4 run_step.
    erewrite bind_raise by (apply getitem_missing; exact Hs).
    split; [reflexivity | discriminate].
  - unfold handle, proxy_recording. do 3 run_step.
    erewrite bind_raise by (apply getitem_missing; exact Hk).
    split; [reflexivity | discriminate].
  - unfold handle, proxy_recording.
    erewrite bind_raise by (apply getitem_missing; exact Hurl).
    split; [reflexivity | discriminate].
Qed.

Lemma proxy_recording_unconfigured_witness :
  handle (proxy_recording (recording_request "key" "secret")) unconfigured_world
  = ([], Ok unauthorized).
Proof.
  apply (proj1 (proxy_recording_unconfigured unconfigured_world
                  (or_introl eq_refl))
           (recording_request "key" "secret")
           "https://api.example/rec/1" "key" "secret");
    reflexivity.
Defined.

(** C9 as stated fails: without configured credentials, a request that
    supplies [api_key] and [api_secret] but no [recording_url] is not
    answered with 401; it raises [KeyError]. *)
Lemma proxy_recording_unconfigured_counterexample :
  environ unconfigured_world !! "NEXMO_API_KEY" = None
  /\ lookup_first "api_key" (query credentials_only_request) = Some "key"
  /\ lookup_first "api_secret" (query credentials_only_request) = Some "secret"
  /\ handle (proxy_recording credentials_only_request) unconfigured_world
     = ([], Raise (KeyError "recording_url"))
  /\ (handle (proxy_recording credentials_only_request) unconfigured_world).2
     <> Ok unauthorized.
Proof.
  repeat split; discriminate.
Qed.

(** ** The auto-record flag *)

Ltac by_code_point c :=
  destruct c as [[] [] [] [] [] [] [] []];
  vm_compute; intros H; try discriminate H; auto.

Lemma lower_char_t c : PyStr.lower_char c = "t"%char -> c = "t"%char \/ c = "T"%char.
Proof. by_code_point c. Qed.

Lemma lower_char_r c : PyStr.lower_char c = "r"%char -> c = "r"%char \/ c = "R"%char.
Proof. by_code_point c. Qed.

Lemma lower_char_u c : PyStr.lower_char c = "u"%char -> c = "u"%char \/ c = "U"%char.
Proof. by_code_point c. Qed.

Lemma lower_char_e c : PyStr.lower_char c = "e"%char -> c = "e"%char \/ c = "E"%char.
Proof. by_code_point c. Qed.

(** A string lowers to [true] exactly when it spells it, in any case. *)
Lemma lower_true_iff s : PyStr.lower s = "true" <-> In s spellings_of_true.
Proof.
  split.
  - destruct s as [|c1 [|c2 [|c3 [|c4 [|c5 s]]]]]; simpl; try discriminate.
    intros [= H1 H2 H3 H4].
    apply lower_char_t in H1. apply lower_char_r in H2.
    apply lower_char_u in H3. apply lower_char_e in H4.
    destruct H1 as [-> | ->], H2 as [-> | ->], H3 as [-> | ->], H4 as [-> | ->];
      repeat first [left; reflexivity | right].
  - intros H. unfold spellings_of_true in H. simpl in H.
    repeat destruct H as [<- | H]; try reflexivity. contradiction.
Qed.

(** C10. [is_auto_recording] answers true exactly when the value of
    [AUTO_RECORD], or ["false"] when the variable is not set, lowers to
    ["true"]: a set value enables recording exactly when it spells [true]
    in any mix of cases, so [TRUE] and [True] enable it, and an unset
    variable disables it. *)
Theorem is_auto_recording_ignores_case w :
  (exists b,
      handle is_auto_recording w = ([], Ok b)
      /\ (b = true <->
          PyStr.lower (default "false" (environ w !! "AUTO_RECORD")) = "true"))
  /\ (forall flag,
        environ w !! "AUTO_RECORD" = Some flag ->
        handle is_auto_recording w = ([], Ok true) <-> In flag spellings_of_true)
  /\ (environ w !! "AUTO_RECORD" = Some "TRUE" ->
      handle is_auto_recording w = ([], Ok true))
  /\ (environ w !! "AUTO_RECORD" = Some "True" ->
      handle is_auto_recording w = ([], Ok true))
  /\ (environ w !! "AUTO_RECORD" = None ->
      handle is_auto_recording w = ([], Ok false)).
Proof.
  unfold handle. rewrite is_auto_recording_run. unfold auto_record_enabled.
  split; [|split; [|split; [|split]]].
  - eexists. split; [reflexivity|]. apply String.eqb_eq.
  - intros flag ->. change (default "false" (Some flag)) with flag.
    rewrite <- lower_true_iff, <- String.eqb_eq.
    split; [now intros [= ->] | now intros ->].
  - now intros ->.
  - now intros ->.
  - now intros ->.
Qed.

Lemma is_auto_recording_ignores_case_witness :
  handle is_auto_recording recording_world = ([], Ok true)
  /\ handle is_auto_recording quiet_world = ([], Ok false).
Proof.
  split.
  - apply (proj1 (proj2 (proj2 (proj2
             (is_auto_recording_ignores_case recording_world))))).
    reflexivity.
  - apply (proj2 (proj2 (proj2 (proj2
             (is_auto_recording_ignores_case quiet_world))))).
    reflexivity.
Defined.

(** ** Failure paths *)

Lemma request_provider_raises a w t ex :
  exception_of (provider w t a) = Some ex ->
  request_provider a w t = ((t ++ [Api a])%list, Raise ex).
Proof.
  unfold request_provider.
  destruct (provider w t a); simpl; intros [= <-]; reflexivity.
Qed.

(** A loop that came to its end sent every request. *)
Lemma for_each_returned {X} (g : X -> api_call) (xs : list X) w t t' u :
  for_each xs (fun x => run request_provider (g x); ret tt) w t = (t', Ok u) ->
  t' = (t ++ map (fun x => Api (g x)) xs)%list.
Proof.
  revert t. induction xs as [|x xs IH]; intros t; simpl.
  - unfold ret. intros [= <- _]. now rewrite app_nil_r.
  - unfold bind at 1. unfold bind at 1.
    pose proof (request_provider_trace (g x) w t) as Ht.
    destruct (request_provider (g x) w t) as [t1 [v|e]]; simpl in Ht; subst t1.
    + unfold ret at 1. intros H. apply IH in H.
      rewrite H, <- app_assoc. reflexivity.
    + discriminate.
Qed.

(** A loop whose requests are accepted up to some element, and refused
    at that element, sends the requests up to it and raises what the
    provider raised. *)
Lemma for_each_first_failure {X} (g : X -> api_call) (before : list X) :
  forall (x : X) (after : list X) w t ex,
    (forall t' a,
        length t <= length t' -> length t' < length t + length before ->
        exists v, provider w t' a = Returns v) ->
    exception_of (provider w (t ++ map (fun y => Api (g y)) before)%list (g x))
    = Some ex ->
    for_each (before ++ x :: after)
      (fun y => run request_provider (g y); ret tt) w t
    = ((t ++ map (fun y => Api (g y)) before ++ [Api (g x)])%list, Raise ex).
Proof.
  induction before as [|b before IH]; intros x after w t ex Hacc Hfail.
  - simpl in *. rewrite app_nil_r in Hfail.
    unfold bind at 1. unfold bind at 1.
    now rewrite (request_provider_raises _ _ _ _ Hfail).
  - simpl. unfold bind at 1. unfold bind at 1.
    destruct (Hacc t (g b)) as [v Hv]; [lia | simpl; lia |].
    unfold request_provider at 1. rewrite Hv. unfold ret at 1.
    rewrite (IH x after w (t ++ [Api (g b)])%list ex).
    + now rewrite <- app_assoc.
    + intros t' a Hge Hlt. rewrite length_app in Hge, Hlt. simpl in *.
      apply Hacc; lia.
    + rewrite <- app_assoc. exact Hfail.
Qed.

(** A loop whose requests are all accepted sends every one of them. *)
Lemma for_each_accepted {X} (g : X -> api_call) (xs : list X) :
  forall w t,
    (forall t' a,
        length t <= length t' -> length t' < length t + length xs ->
        exists v, provider w t' a = Returns v) ->
    for_each xs (fun y => run request_provider (g y); ret tt) w t
    = ((t ++ map (fun y => Api (g y)) xs)%list, Ok tt).
Proof.
  induction xs as [|b xs IH]; intros w t Hacc; simpl.
  - now rewrite app_nil_r.
  - unfold bind at 1. unfold bind at 1.
    destruct (Hacc t (g b)) as [v Hv]; [lia | simpl; lia |].
    unfold request_provider at 1. rewrite Hv. unfold ret at 1.
    rewrite IH.
    + now rewrite <- app_assoc.
    + intros t' a Hge Hlt. rewrite length_app in Hge, Hlt. simpl in *.
      apply Hacc; lia.
Qed.

(** [answer_call] up to its loop: with the three parameters present, the
    handler returns its instruction list when the loop comes to its end,
    and raises what the loop raises. *)
Lemma answer_call_steps w rq hotline conv call :
  lookup_first "to" (query rq) = Some hotline ->
  lookup_first "conversation_uuid" (query rq) = Some conv ->
  lookup_first "uuid" (query rq) = Some call ->
  exists r,
    handle (answer_call rq) w =
    match for_each (phone_numbers_json w)
            (fun e => run request_provider (create_call (client_of w)
                        (call_params rq hotline (PyStr.strip conv)
                           (PyStr.strip call) e));
                      ret tt) w [] with
    | (t', Ok _) => (t', Ok r)
    | (t', Raise ex) => (t', Raise ex)
    end.
Proof.
  intros Hto Hconv Hcall.
  destruct (random_choice_playlist w []) as [track [_ [_ Hch]]].
  unfold handle, answer_call.
  do 3 run_step. cbv zeta.
  run_step.
  erewrite bind_ok by exact Hch.
  run_step.
  destruct (auto_record_enabled w); do 3 run_step;
    eexists; unfold bind at 1;
    match goal with |- context [for_each ?xs ?f w []] =>
      destruct (for_each xs f w []) as [t' [[]|ex]] end; reflexivity.
Qed.

Lemma accepts_first_from_start w n :
  accepts_first w n ->
  forall t' a,
    length (@nil event) <= length t' -> length t' < length (@nil event) + n ->
    exists v, provider w t' a = Returns v.
Proof. intros Hacc t' a _ Hlt. apply Hacc. exact Hlt. Qed.

(** X1. [answer_call] returns a response only after every staff entry
    was dialed: whatever the provider does, a returned response means that
    the three parameters were present and that the requests sent are the
    calls to all entries of the directory, in order. *)
Theorem answer_call_response_means_all_dialed w rq r :
  (handle (answer_call rq) w).2 = Ok r ->
  exists hotline conv call,
    lookup_first "to" (query rq) = Some hotline
    /\ lookup_first "conversation_uuid" (query rq) = Some conv
    /\ lookup_first "uuid" (query rq) = Some call
    /\ (handle (answer_call rq) w).1
       = map (outbound_call w (host rq) hotline (PyStr.strip conv)
                (PyStr.strip call))
             (phone_numbers_json w).
Proof.
  destruct (lookup_first "to" (query rq)) as [hotline|] eqn:Hto;
    [destruct (lookup_first "conversation_uuid" (query rq)) as [conv|] eqn:Hconv;
     [destruct (lookup_first "uuid" (query rq)) as [call|] eqn:Hcall|]|].
  - destruct (answer_call_steps w rq hotline conv call Hto Hconv Hcall)
      as [r' Hsteps].
    rewrite Hsteps.
    destruct (for_each _ _ w []) as [t' [u|ex]] eqn:Hloop; [|discriminate].
    intros _. exists hotline, conv, call. repeat split.
    apply for_each_returned in Hloop. exact Hloop.
  - unfold handle, answer_call. do 2 run_step.
    erewrite bind_raise by (apply getitem_missing; exact Hcall). discriminate.
  - unfold handle, answer_call. run_step.
    erewrite bind_raise by (apply getitem_missing; exact Hconv). discriminate.
  - unfold handle, answer_call.
    erewrite bind_raise by (apply getitem_missing; exact Hto). discriminate.
Qed.

Lemma answer_call_response_means_all_dialed_witness :
  exists hotline conv call,
    lookup_first "to" (query inbound_call_request) = Some hotline
    /\ lookup_first "conversation_uuid" (query inbound_call_request) = Some conv
    /\ lookup_first "uuid" (query inbound_call_request) = Some call
    /\ (handle (answer_call inbound_call_request) quiet_world).1
       = map (outbound_call quiet_world (host inbound_call_request) hotline
                (PyStr.strip conv) (PyStr.strip call))
             (phone_numbers_json quiet_world).
Proof.
  eapply (answer_call_response_means_all_dialed quiet_world inbound_call_request).
  vm_compute. reflexivity.
Defined.

(** X2. A refused call stops [answer_call]: when the calls to the entries
    before some entry are accepted and the call to that entry raises,
    the handler raises the same exception, the entries after it are not
    dialed, and no instruction list is returned. *)
Theorem answer_call_stops_at_first_refusal
    w rq hotline conv call before e after ex :
  lookup_first "to" (query rq) = Some hotline ->
  lookup_first "conversation_uuid" (query rq) = Some conv ->
  lookup_first "uuid" (query rq) = Some call ->
  phone_numbers_json w = (before ++ e :: after)%list ->
  accepts_first w (length before) ->
  exception_of
    (provider w
       (map (outbound_call w (host rq) hotline (PyStr.strip conv)
               (PyStr.strip call)) before)
       (dial w rq hotline (PyStr.strip conv) (PyStr.strip call) e)) = Some ex ->
  handle (answer_call rq) w
  = ((map (outbound_call w (host rq) hotline (PyStr.strip conv)
             (PyStr.strip call)) before
      ++ [outbound_call w (host rq) hotline (PyStr.strip conv)
            (PyStr.strip call) e])%list,
     Raise ex).
Proof.
  intros Hto Hconv Hcall Hstaff Hacc Hfail.
  destruct (answer_call_steps w rq hotline conv call Hto Hconv Hcall)
    as [r Hsteps].
  rewrite Hsteps, Hstaff.
  rewrite (for_each_first_failure
             (fun e => create_call (client_of w)
                (call_params rq hotline (PyStr.strip conv) (PyStr.strip call) e))
             before e after w [] ex
             (accepts_first_from_start w _ Hacc) Hfail).
  reflexivity.
Qed.

Lemma answer_call_stops_at_first_refusal_witness :
  handle (answer_call inbound_call_request) (world_with (refusing_after 1))
  = ([outbound_call (world_with (refusing_after 1))
        "hotline.example" "9999" "c1" "u1" ann;
      outbound_call (world_with (refusing_after 1))
        "hotline.example" "9999" "c1" "u1" bo],
     Raise (NexmoError "rejected")).
Proof.
  apply (answer_call_stops_at_first_refusal
           (world_with (refusing_after 1)) inbound_call_request
           "9999" "c1" "u1" [ann] bo [] (NexmoError "rejected"));
    [reflexivity | reflexivity | reflexivity | reflexivity | | reflexivity].
  intros t a Hlt. destruct t as [|ev t]; [|simpl in Hlt; lia].
  exists "ok". reflexivity.
Defined.

(** [inbound_sms] up to the end of its loop and through the
    acknowledgment, with the three parameters present. *)
Lemma inbound_sms_steps w rq hotline sender message :
  lookup_first "to" (query rq) = Some hotline ->
  lookup_first "msisdn" (query rq) = Some sender ->
  lookup_first "text" (query rq) = Some message ->
  handle (inbound_sms rq) w =
  match for_each (phone_numbers_json w)
          (fun e => run request_provider (forward w hotline sender message e);
                    ret tt) w [] with
  | (t', Ok _) =>
      match provider w t' (acknowledge w hotline sender) with
      | Returns _ =>
          ((t' ++ [Api (acknowledge w hotline sender)])%list, Ok no_content)
      | RaisesNexmoError msg =>
          ((t' ++ [Api (acknowledge w hotline sender)])%list,
           Raise (NexmoError msg))
      | RaisesOther msg =>
          ((t' ++ [Api (acknowledge w hotline sender)])%list,
           Raise (OtherException msg))
      end
  | (t', Raise ex) => (t', Raise ex)
  end.
Proof.
  intros Hto Hfrom Htext.
  unfold handle, inbound_sms.
  do 5 run_step.
  unfold bind at 1. unfold forward.
  destruct (for_each _ _ w []) as [t' [[]|ex]]; [|reflexivity].
  run_step. unfold bind at 1, request_provider, acknowledge.
  destruct (provider w t' _); reflexivity.
Qed.

(** X3. [inbound_sms] answers 204 only after everything was sent:
    whatever the provider does, a returned response is the empty 204
    response, the three parameters were present, and the requests sent
    are the messages to all staff entries, in order, followed by the
    acknowledgment to the sender. *)
Theorem inbound_sms_response_means_all_sent w rq r :
  (handle (inbound_sms rq) w).2 = Ok r ->
  r = {| status := 204; content_type := None; payload := NoBody |}
  /\ exists hotline sender message,
       lookup_first "to" (query rq) = Some hotline
       /\ lookup_first "msisdn" (query rq) = Some sender
       /\ lookup_first "text" (query rq) = Some message
       /\ (handle (inbound_sms rq) w).1
          = (map (staff_sms w hotline sender message) (phone_numbers_json w)
             ++ [acknowledgment_sms w hotline sender])%list.
Proof.
  destruct (lookup_first "to" (query rq)) as [hotline|] eqn:Hto;
    [destruct (lookup_first "msisdn" (query rq)) as [sender|] eqn:Hfrom;
     [destruct (lookup_first "text" (query rq)) as [message|] eqn:Htext|]|].
  - rewrite (inbound_sms_steps w rq hotline sender message Hto Hfrom Htext).
    destruct (for_each _ _ w []) as [t' [u|ex]] eqn:Hloop; [|discriminate].
    apply for_each_returned in Hloop. subst t'.
    destruct (provider w _ (acknowledge w hotline sender)); [|discriminate..].
    intros [= <-]. split; [reflexivity|].
    exists hotline, sender, message. repeat split.
  - unfold handle, inbound_sms. do 2 run_step.
    erewrite bind_raise by (apply getitem_missing; exact Htext). discriminate.
  - unfold handle, inbound_sms. run_step.
    erewrite bind_raise by (apply getitem_missing; exact Hfrom). discriminate.
  - unfold handle, inbound_sms.
    erewrite bind_raise by (apply getitem_missing; exact Hto). discriminate.
Qed.

Lemma inbound_sms_response_means_all_sent_witness :
  no_content = {| status := 204; content_type := None; payload := NoBody |}
  /\ exists hotline sender message,
       lookup_first "to" (query sms_request) = Some hotline
       /\ lookup_first "msisdn" (query sms_request) = Some sender
       /\ lookup_first "text" (query sms_request) = Some message
       /\ (handle (inbound_sms sms_request) quiet_world).1
          = (map (staff_sms quiet_world hotline sender message)
               (phone_numbers_json quiet_world)
             ++ [acknowledgment_sms quiet_world hotline sender])%list.
Proof.
  apply (inbound_sms_response_means_all_sent quiet_world sms_request).
  vm_compute. reflexivity.
Defined.

(** X4. A refused staff message stops [inbound_sms]: when the messages
    to the entries before some entry are accepted and the message to that
    entry raises, the handler raises the same exception, the entries after
    it get no message, the sender gets no acknowledgment, and no response
    is returned. *)
Theorem inbound_sms_stops_at_first_refusal
    w rq hotline sender message before e after ex :
  lookup_first "to" (query rq) = Some hotline ->
  lookup_first "msisdn" (query rq) = Some sender ->
  lookup_first "text" (query rq) = Some message ->
  phone_numbers_json w = (before ++ e :: after)%list ->
  accepts_first w (length before) ->
  exception_of
    (provider w (map (staff_sms w hotline sender message) before)
       (forward w hotline sender message e)) = Some ex ->
  handle (inbound_sms rq) w
  = ((map (staff_sms w hotline sender message) before
      ++ [staff_sms w hotline sender message e])%list,
     Raise ex).
Proof.
  intros Hto Hfrom Htext Hstaff Hacc Hfail.
  rewrite (inbound_sms_steps w rq hotline sender message Hto Hfrom Htext).
  rewrite Hstaff.
  rewrite (for_each_first_failure (forward w hotline sender message)
             before e after w [] ex
             (accepts_first_from_start w _ Hacc) Hfail).
  reflexivity.
Qed.

Lemma inbound_sms_stops_at_first_refusal_witness :
  handle (inbound_sms sms_request) (world_with (refusing_after 0))
  = ([staff_sms (world_with (refusing_after 0)) "9999" "5555" "help" ann],
     Raise (NexmoError "rejected")).
Proof.
  apply (inbound_sms_stops_at_first_refusal
           (world_with (refusing_after 0)) sms_request
           "9999" "5555" "help" [] ann [bo] (NexmoError "rejected"));
    [reflexivity | reflexivity | reflexivity | reflexivity | | reflexivity].
  intros t a Hlt. simpl in Hlt. lia.
Defined.

(** X5. A refused acknowledgment fails [inbound_sms] after the staff was
    told: when every staff message is accepted and the acknowledgment
    raises, all N staff messages and the acknowledgment request were
    sent, and the handler raises the same exception instead of answering
    204. *)
Theorem inbound_sms_acknowledgment_refused w rq hotline sender message ex :
  lookup_first "to" (query rq) = Some hotline ->
  lookup_first "msisdn" (query rq) = Some sender ->
  lookup_first "text" (query rq) = Some message ->
  accepts_first w (length (phone_numbers_json w)) ->
  exception_of
    (provider w
       (map (staff_sms w hotline sender message) (phone_numbers_json w))
       (acknowledge w hotline sender)) = Some ex ->
  handle (inbound_sms rq) w
  = ((map (staff_sms w hotline sender message) (phone_numbers_json w)
      ++ [acknowledgment_sms w hotline sender])%list,
     Raise ex).
Proof.
  intros Hto Hfrom Htext Hacc Hfail.
  rewrite (inbound_sms_steps w rq hotline sender message Hto Hfrom Htext).
  rewrite (for_each_accepted (forward w hotline sender message)
             (phone_numbers_json w) w []
             (accepts_first_from_start w _ Hacc)).
  unfold request_provider in *. cbn [app].
  change (map (fun x => Api (forward w hotline sender message x))
            (phone_numbers_json w))
    with (map (staff_sms w hotline sender message) (phone_numbers_json w)).
  destruct (provider w _ (acknowledge w hotline sender));
    simpl in Hfail; [discriminate | |]; injection Hfail as <-; reflexivity.
Qed.

Lemma inbound_sms_acknowledgment_refused_witness :
  handle (inbound_sms sms_request) (world_with (refusing_after 2))
  = ([staff_sms (world_with (refusing_after 2)) "9999" "5555" "help" ann;
      staff_sms (world_with (refusing_after 2)) "9999" "5555" "help" bo;
      acknowledgment_sms (world_with (refusing_after 2)) "9999" "5555"],
     Raise (NexmoError "rejected")).
Proof.
  apply (inbound_sms_acknowledgment_refused
           (world_with (refusing_after 2)) sms_request
           "9999" "5555" "help" (NexmoError "rejected"));
    [reflexivity | reflexivity | reflexivity | | reflexivity].
  intros t a Hlt. simpl in Hlt.
  destruct t as [|e1 [|e2 t]]; [| |simpl in Hlt; lia];
    exists "ok"; reflexivity.
Defined.

(** X6. When one of the parameters [to], [msisdn] and [text] is missing
    from the query, [inbound_sms] raises [KeyError] on a missing one and
    has sent no message, neither to the staff nor to the sender. *)
Theorem inbound_sms_missing_parameter w rq :
  lookup_first "to" (query rq) = None
  \/ lookup_first "msisdn" (query rq) = None
  \/ lookup_first "text" (query rq) = None ->
  exists k,
    In k ["to"; "msisdn"; "text"]
    /\ lookup_first k (query rq) = None
    /\ handle (inbound_sms rq) w = ([], Raise (KeyError k)).
Proof.
  intros Hmissing. unfold handle, inbound_sms.
  destruct (lookup_first "to" (query rq)) as [hotline|] eqn:Hto.
  - run_step.
    destruct (lookup_first "msisdn" (query rq)) as [sender|] eqn:Hfrom.
    + run_step.
      destruct (lookup_first "text" (query rq)) as [message|] eqn:Htext.
      * exfalso. destruct Hmissing as [H|[H|H]]; discriminate H.
      * exists "text". split; [simpl; tauto|]. split; [exact Htext|].
        erewrite bind_raise by (apply getitem_missing; exact Htext).
        reflexivity.
    + exists "msisdn". split; [simpl; tauto|]. split; [exact Hfrom|].
      erewrite bind_raise by (apply getitem_missing; exact Hfrom).
      reflexivity.
  - exists "to". split; [simpl; tauto|]. split; [exact Hto|].
    erewrite bind_raise by (apply getitem_missing; exact Hto).
    reflexivity.
Qed.

Lemma inbound_sms_missing_parameter_witness :
  exists k,
    In k ["to"; "msisdn"; "text"]
    /\ lookup_first k (query inbound_call_request) = None
    /\ handle (inbound_sms inbound_call_request) quiet_world
       = ([], Raise (KeyError k)).
Proof.
  apply (inbound_sms_missing_parameter quiet_world inbound_call_request).
  right. left. reflexivity.
Defined.



(** X8. When one of the parameters [recording_url], [api_key] and
    [api_secret] is missing from the query, [proxy_recording] raises
    [KeyError] on a missing one: it answers neither 401 nor 200 and
    fetches nothing, whatever the credentials that were supplied. *)
Theorem proxy_recording_missing_parameter w rq :
  lookup_first "recording_url" (query rq) = None
  \/ lookup_first "api_key" (query rq) = None
  \/ lookup_first "api_secret" (query rq) = None ->
  exists k,
    In k ["recording_url"; "api_key"; "api_secret"]
    /\ lookup_first k (query rq) = None
    /\ handle (proxy_recording rq) w = ([], Raise (KeyError k)).
Proof.
  intros Hmissing. unfold handle, proxy_recording.
  destruct (lookup_first "recording_url" (query rq)) as [url|] eqn:Hurl.
  - do 3 run_step.
    destruct (lookup_first "api_key" (query rq)) as [k|] eqn:Hk.
    + run_step.
      destruct (lookup_first "api_secret" (query rq)) as [s|] eqn:Hs.
      * exfalso. destruct Hmissing as [H|[H|H]]; discriminate H.
      * exists "api_secret". split; [simpl; tauto|]. split; [exact Hs|].
        erewrite bind_raise by (apply getitem_missing; exact Hs).
        reflexivity.
    + exists "api_key". split; [simpl; tauto|]. split; [exact Hk|].
      erewrite bind_raise by (apply getitem_missing; exact Hk).
      reflexivity.
  - exists "recording_url". split; [simpl; tauto|]. split; [exact Hurl|].
    erewrite bind_raise by (apply getitem_missing; exact Hurl).
    reflexivity.
Qed.

Lemma proxy_recording_missing_parameter_witness :
  exists k,
    In k ["recording_url"; "api_key"; "api_secret"]
    /\ lookup_first k (query credentials_only_request) = None
    /\ handle (proxy_recording credentials_only_request) quiet_world
       = ([], Raise (KeyError k)).
Proof.
  apply (proxy_recording_missing_parameter quiet_world credentials_only_request).
  left. reflexivity.
Defined.

(** X9. [answer_conference_call] catches [nexmo.Error] only: when the
    joining notice raises an exception of another class, the handler
    raises it, prints nothing and returns no instruction list. *)
Theorem answer_conference_call_other_exception_escapes w rq to conv call msg :
  lookup_first "to" (query rq) = Some to ->
  lookup_first "origin_conversation_uuid" (match_info rq) = Some conv ->
  lookup_first "origin_call_uuid" (match_info rq) = Some call ->
  provider w []
    (send_speech (client_of w) call
       (PyStr.fmt (owner_in (phone_numbers_json w) to)
        ++ " is joining this call."))
  = RaisesOther msg ->
  handle (answer_conference_call rq) w
  = ([Api (send_speech (client_of w) call
             (PyStr.fmt (owner_in (phone_numbers_json w) to)
              ++ " is joining this call."))],
     Raise (OtherException msg)).
Proof.
  intros Hto Hconv Hcall Hfail.
  rewrite (answer_conference_call_run w rq to conv call Hto Hconv Hcall).
  cbv zeta. unfold joining_notice. now rewrite Hfail.
Qed.

Lemma answer_conference_call_other_exception_escapes_witness :
  handle (answer_conference_call (conference_request "2222"))
    (world_with unplugged)
  = ([Api (send_speech (client_of (world_with unplugged)) "u1"
             "Bo is joining this call.")],
     Raise (OtherException "connection reset")).
Proof.
  apply (answer_conference_call_other_exception_escapes
           (world_with unplugged) (conference_request "2222")
           "2222" "c1" "u1" "connection reset");
    reflexivity.
Defined.

(** X10. [proxy_recording] gives a recording away only to the configured
    credentials: whatever the provider does, a response that is not the
    401 response means that both the key and the secret are configured,
    that the supplied ones equal them, that the single request made was
    the fetch of the supplied URL, and that the body is what that fetch
    returned. *)
Theorem proxy_recording_audio_needs_credentials w rq r :
  (handle (proxy_recording rq) w).2 = Ok r ->
  status r <> 401 ->
  exists url k s recording,
    lookup_first "recording_url" (query rq) = Some url
    /\ lookup_first "api_key" (query rq) = Some k
    /\ lookup_first "api_secret" (query rq) = Some s
    /\ environ w !! "NEXMO_API_KEY" = Some k
    /\ environ w !! "NEXMO_API_SECRET" = Some s
    /\ provider w [] (get_recording (client_of w) url) = Returns recording
    /\ r = {| status := 200; content_type := Some "audio/mpeg";
              payload := Bytes recording |}
    /\ (handle (proxy_recording rq) w).1 = [Api (get_recording (client_of w) url)].
Proof.
  destruct (lookup_first "recording_url" (query rq)) as [url|] eqn:Hurl;
    [destruct (lookup_first "api_key" (query rq)) as [k|] eqn:Hk;
     [destruct (lookup_first "api_secret" (query rq)) as [s|] eqn:Hs|]|].
  - rewrite (proxy_recording_run w rq url k s Hurl Hk Hs).
    destruct (py_ne (environ w !! "NEXMO_API_KEY") k) eqn:Ekey.
    { simpl. intros [= <-] H. now contradiction H. }
    destruct (py_ne (environ w !! "NEXMO_API_SECRET") s) eqn:Esecret.
    { simpl. intros [= <-] H. now contradiction H. }
    apply py_ne_false in Ekey, Esecret. cbn [orb].
    destruct (provider w [] (get_recording (client_of w) url))
      as [recording|msg|msg] eqn:Hfetch; [|discriminate..].
    intros [= <-] _. exists url, k, s, recording. repeat split; assumption.
  - unfold handle, proxy_recording. do 4 run_step.
    erewrite bind_raise by (apply getitem_missing; exact Hs). discriminate.
  - unfold handle, proxy_recording. do 3 run_step.
    erewrite bind_raise by (apply getitem_missing; exact Hk). discriminate.
  - unfold handle, proxy_recording.
    erewrite bind_raise by (apply getitem_missing; exact Hurl). discriminate.
Qed.

Lemma proxy_recording_audio_needs_credentials_witness :
  exists url k s recording,
    lookup_first "recording_url" (query (recording_request "key" "secret"))
    = Some url
    /\ lookup_first "api_key" (query (recording_request "key" "secret")) = Some k
    /\ lookup_first "api_secret" (query (recording_request "key" "secret"))
       = Some s
    /\ environ quiet_world !! "NEXMO_API_KEY" = Some k
    /\ environ quiet_world !! "NEXMO_API_SECRET" = Some s
    /\ provider quiet_world [] (get_recording (client_of quiet_world) url)
       = Returns recording
    /\ audio "ok" = {| status := 200; content_type := Some "audio/mpeg";
                       payload := Bytes recording |}
    /\ (handle (proxy_recording (recording_request "key" "secret"))
          quiet_world).1
       = [Api (get_recording (client_of quiet_world) url)].
Proof.
  apply (proxy_recording_audio_needs_credentials
           quiet_world (recording_request "key" "secret") (audio "ok")).
  - vm_compute. reflexivity.
  - simpl. lia.
Defined.

(** X11. A failed fetch fails [proxy_recording]: with the configured
    credentials supplied, when the provider raises on the fetch of the
    recording, the handler raises the same exception after that one
    request and returns no response. *)
Theorem proxy_recording_fetch_failure w rq url k s ex :
  lookup_first "recording_url" (query rq) = Some url ->
  lookup_first "api_key" (query rq) = Some k ->
  lookup_first "api_secret" (query rq) = Some s ->
  environ w !! "NEXMO_API_KEY" = Some k ->
  environ w !! "NEXMO_API_SECRET" = Some s ->
  exception_of (provider w [] (get_recording (client_of w) url)) = Some ex ->
  handle (proxy_recording rq) w
  = ([Api (get_recording (client_of w) url)], Raise ex).
Proof.
  intros Hurl Hk Hs Hkey Hsecret Hfail.
  rewrite (proxy_recording_run w rq url k s Hurl Hk Hs).
  apply py_ne_false in Hkey, Hsecret. rewrite Hkey, Hsecret. cbn [orb].
  destruct (provider w [] (get_recording (client_of w) url));
    simpl in Hfail; [discriminate | |]; injection Hfail as <-; reflexivity.
Qed.

Lemma proxy_recording_fetch_failure_witness :
  handle (proxy_recording (recording_request "key" "secret"))
    (world_with unplugged)
  = ([Api (get_recording (client_of (world_with unplugged))
             "https://api.example/rec/1")],
     Raise (OtherException "connection reset")).
Proof.
  apply (proxy_recording_fetch_failure
           (world_with unplugged) (recording_request "key" "secret")
           "https://api.example/rec/1" "key" "secret"
           (OtherException "connection reset"));
    reflexivity.
Defined.

(** ** The staff directory *)

Lemma owner_in_unique staff e :
  List.NoDup (map phone staff) -> In e staff ->
  owner_in staff (phone e) = Some (name e).
Proof.
  induction staff as [|b staff IH]; intros Hnodup Hin; [contradiction|].
  simpl in Hnodup. apply NoDup_cons_iff in Hnodup. destruct Hnodup as [Hfresh Hnodup].
  simpl. destruct (String.eqb_spec (phone b) (phone e)) as [Heq|Hne].
  - destruct Hin as [-> | Hin]; [reflexivity|].
    exfalso. apply Hfresh. rewrite Heq. apply in_map. exact Hin.
  - destruct Hin as [-> | Hin]; [congruence|]. now apply IH.
Qed.


(** X12. In a directory whose phone numbers are all different, every
    entry is found under its own phone number: [get_phone_number_owner]
    returns the entry's name, and a staff member reached at that number
    is welcomed by that name. *)
Theorem unique_phones_name_their_owner w rq e conv call :
  List.NoDup (map phone (phone_numbers_json w)) ->
  In e (phone_numbers_json w) ->
  lookup_first "to" (query rq) = Some (phone e) ->
  lookup_first "origin_conversation_uuid" (match_info rq) = Some conv ->
  lookup_first "origin_call_uuid" (match_info rq) = Some call ->
  provider_raises_only_nexmo_errors w ->
  handle (get_phone_number_owner (phone e)) w = ([], Ok (Some (name e)))
  /\ (handle (answer_conference_call rq) w).2
     = Ok (json_response (JList [
         talk ("Hello " ++ name e ++ ", connecting you to "
               ++ PyStr.fmt (environ w !! "HOTLINE_DESC") ++ ".");
         moderator_conference conv])).
Proof.
  intros Hnodup Hin Hto Hconv Hcall Honly.
  pose proof (owner_in_unique _ e Hnodup Hin) as Howner.
  split.
  - unfold handle, get_phone_number_owner. run_step.
    unfold ret. now rewrite Howner.
  - rewrite (answer_conference_call_run w rq (phone e) conv call Hto Hconv Hcall).
    cbv zeta. rewrite Howner.
    destruct (provider w [] _) as [v|msg|msg] eqn:Hanswer;
      [reflexivity | reflexivity |].
    exfalso. exact (Honly _ _ _ Hanswer).
Qed.

Lemma unique_phones_name_their_owner_witness :
  handle (get_phone_number_owner "2222") quiet_world = ([], Ok (Some "Bo"))
  /\ (handle (answer_conference_call (conference_request "2222")) quiet_world).2
     = Ok (json_response (JList [
         talk "Hello Bo, connecting you to CoC hotline.";
         moderator_conference "c1"])).
Proof.
  apply (unique_phones_name_their_owner
           quiet_world (conference_request "2222") bo "c1" "u1");
    [ repeat constructor; simpl; intuition discriminate
    | right; left; reflexivity
    | reflexivity | reflexivity | reflexivity
    | intros t a msg H; discriminate H ].
Defined.


(** ** Blanks around the identifiers *)

(** X14. [answer_call] does not see blanks around the identifiers: two
    requests from the same host to the same hotline number, whose
    conversation and call identifiers are equal once stripped, send the
    same requests and get the same answer, whatever the provider does. *)
Theorem answer_call_ignores_blank_padding
    w rq rq' hotline conv call conv' call' :
  host rq = host rq' ->
  lookup_first "to" (query rq) = Some hotline ->
  lookup_first "conversation_uuid" (query rq) = Some conv ->
  lookup_first "uuid" (query rq) = Some call ->
  lookup_first "to" (query rq') = Some hotline ->
  lookup_first "conversation_uuid" (query rq') = Some conv' ->
  lookup_first "uuid" (query rq') = Some call' ->
  PyStr.strip conv = PyStr.strip conv' ->
  PyStr.strip call = PyStr.strip call' ->
  handle (answer_call rq) w = handle (answer_call rq') w.
Proof.
  intros Hhost Hto Hconv Hcall Hto' Hconv' Hcall' Esconv Escall.
  unfold handle, answer_call.
  rewrite (bind_ok _ _ w [] [] hotline (getitem_ok _ _ _ w [] Hto)).
  rewrite (bind_ok _ _ w [] [] conv (getitem_ok _ _ _ w [] Hconv)).
  rewrite (bind_ok _ _ w [] [] call (getitem_ok _ _ _ w [] Hcall)).
  rewrite (bind_ok _ _ w [] [] hotline (getitem_ok _ _ _ w [] Hto')).
  rewrite (bind_ok _ _ w [] [] conv' (getitem_ok _ _ _ w [] Hconv')).
  rewrite (bind_ok _ _ w [] [] call' (getitem_ok _ _ _ w [] Hcall')).
  cbv zeta. unfold call_params. rewrite Hhost, Esconv, Escall. reflexivity.
Qed.

Lemma answer_call_ignores_blank_padding_witness :
  handle (answer_call padded_call_request) quiet_world
  = handle (answer_call inbound_call_request) quiet_world.
Proof.
  apply (answer_call_ignores_blank_padding
           quiet_world padded_call_request inbound_call_request
           "9999" " c1" "u1" "c1" "u1");
    reflexivity.
Defined.

(** ** Every way a handler can fail *)






(** X17. No [nexmo.Error] ever leaves [answer_conference_call]: for
    every request and whatever the provider does, the handler does not
    raise [nexmo.Error]; it makes at most one request to the provider,
    and that request is a speech request. *)
Theorem answer_conference_call_never_raises_nexmo_error w rq :
  (forall msg, (handle (answer_conference_call rq) w).2 <> Raise (NexmoError msg))
  /\ (forall a, In (Api a) (handle (answer_conference_call rq) w).1 ->
        exists c uuid text,
          a = send_speech c uuid text
          /\ exists rest, (handle (answer_conference_call rq) w).1
                          = Api a :: rest
                          /\ forall a', ~ In (Api a') rest).
Proof.
  destruct (lookup_first "to" (query rq)) as [to|] eqn:Hto;
    [destruct (lookup_first "origin_conversation_uuid" (match_info rq))
       as [conv|] eqn:Hconv;
     [destruct (lookup_first "origin_call_uuid" (match_info rq))
        as [call|] eqn:Hcall|]|].
  - rewrite (answer_conference_call_run w rq to conv call Hto Hconv Hcall).
    cbv zeta. unfold joining_notice.
    destruct (provider w [] _) as [v|msg|msg]; cbn [fst snd];
      (split; [intros msg'; discriminate|]);
      intros a Hin; simpl in Hin;
      repeat (destruct Hin as [Hin|Hin]; [|]); try contradiction;
      try discriminate Hin; injection Hin as <-;
      eexists _, _, _; (split; [reflexivity|]);
      eexists; (split; [reflexivity|]);
      intros a' Ha'; simpl in Ha'; intuition discriminate.
  - unfold handle, answer_conference_call. do 2 run_step.
    erewrite bind_raise by (apply getitem_missing; exact Hcall).
    split; [intros msg; discriminate | intros a []].
  - unfold handle, answer_conference_call. run_step.
    erewrite bind_raise by (apply getitem_missing; exact Hconv).
    split; [intros msg; discriminate | intros a []].
  - unfold handle, answer_conference_call.
    erewrite bind_raise by (apply getitem_missing; exact Hto).
    split; [intros msg; discriminate | intros a []].
Qed.
